(** * Verification of [scripts/validate_templates.py]

    A shallow embedding of the template validator: the manifest as the
    script reads it from [index.json], the templates directory as the
    script queries it, the four checks and the driver [main].

    Modelling choices:
    - Python strings are [string]s holding the UTF-8 bytes of the text;
      the digit test [str.isdigit] decodes them and accepts the digits
      of Unicode, as Python does.
    - The manifest is taken as the annotations of the script type it, a
      list of objects whose fields, when present, hold strings and lists;
      a field may be absent, as every access goes through [dict.get].
    - Python [set] objects are [gset string]s, the dictionary
      [seen_names] is a [gmap string string].  The script iterates over
      sets in an order Python does not specify; the model iterates in the
      order of [elements], and the theorems are stated on membership and
      multiplicity wherever an order comes from a set.
    - The file system is one directory state per run (see [Directory]);
      every existence test the file-consistency check makes is logged,
      so that one can state which tests it makes.
    - [jsonschema.validate] and the schema document are parameters of
      the driver; the [jsonschema] package is assumed to be installed
      (the script exits at import time otherwise).  [main] is modelled
      by the list of the strings it prints and the value it returns. *)

From Stdlib Require Import Ascii.
From Stdlib Require String.
From stdpp Require Import gmap strings list fin_maps pretty.

(** ** Python string operations used by the script *)

Module PyStr.

(** [s.startswith(p)] *)
Definition startswith (s p : string) : bool := String.prefix p s.

(** [s.endswith(suf)] *)
Fixpoint endswith (s suf : string) : bool :=
  String.eqb s suf ||
  match s with
  | EmptyString => false
  | String _ s' => endswith s' suf
  end.

(** [s[n:]] *)
Fixpoint slice_from (n : nat) (s : string) : string :=
  match n, s with
  | O, _ => s
  | S _, EmptyString => EmptyString
  | S k, String _ s' => slice_from k s'
  end.

(** [s.split('.')[0]]: the text before the first dot, all of [s] when
    it has none. *)
Fixpoint before_dot (s : string) : string :=
  match s with
  | EmptyString => EmptyString
  | String c s' =>
      if Ascii.eqb c "."%char then EmptyString else String c (before_dot s')
  end.

(** A Python string is a sequence of code points; the model holds its
    UTF-8 bytes, as the file system and [index.json] do.  Prefixes,
    suffixes and searches for ASCII text are the same on the bytes as on
    the code points; [str.isdigit] is not, and decodes.

    [code_points s] is the sequence of code points that [s] encodes, and
    [None] when [s] is not well-formed UTF-8 (an overlong form, a
    surrogate, a value above U+10FFFF, a stray or missing continuation
    byte): Python then holds lone surrogates for the offending bytes of
    a file name, and [str.isdigit] is false. *)
Definition continuation (a : ascii) : option N :=
  let b := N_of_ascii a in
  if (128 <=? b)%N && (b <? 192)%N then Some (b - 128)%N else None.

(** [p] when it is a scalar value that needs the encoded length: at
    least [least], at most U+10FFFF, not a surrogate. *)
Definition scalar (least p : N) : option N :=
  if (least <=? p)%N && (p <=? 1114111)%N
     && negb ((55296 <=? p)%N && (p <=? 57343)%N)
  then Some p else None.

Definition two_bytes (b0 : N) (a1 : ascii) : option N :=
  if (192 <=? b0)%N
  then c1 ← continuation a1; scalar 128 ((b0 - 192) * 64 + c1)%N
  else None.

Definition three_bytes (b0 : N) (a1 a2 : ascii) : option N :=
  c1 ← continuation a1; c2 ← continuation a2;
  scalar 2048 ((b0 - 224) * 4096 + c1 * 64 + c2)%N.

Definition four_bytes (b0 : N) (a1 a2 a3 : ascii) : option N :=
  c1 ← continuation a1; c2 ← continuation a2; c3 ← continuation a3;
  scalar 65536 ((b0 - 240) * 262144 + c1 * 4096 + c2 * 64 + c3)%N.

Fixpoint code_points (s : string) : option (list N) :=
  match s with
  | EmptyString => Some []
  | String a0 s1 =>
      let b0 := N_of_ascii a0 in
      if (b0 <? 128)%N then cons b0 <$> code_points s1
      else
        match s1 with
        | EmptyString => None
        | String a1 s2 =>
            if (b0 <? 224)%N
            then p ← two_bytes b0 a1; cons p <$> code_points s2
            else
              match s2 with
              | EmptyString => None
              | String a2 s3 =>
                  if (b0 <? 240)%N
                  then p ← three_bytes b0 a1 a2; cons p <$> code_points s3
                  else
                    match s3 with
                    | EmptyString => None
                    | String a3 s4 =>
                        p ← four_bytes b0 a1 a2 a3; cons p <$> code_points s4
                    end
              end
        end
  end.

(** The code points [p] with [chr(p).isdigit()]: the characters of
    numeric type Decimal or Digit, in inclusive ranges (Unicode 14.0,
    the table of CPython 3.11).  Besides [0] to [9] these are the
    decimal digits of the other scripts, superscripts and subscripts,
    circled and dingbat digits. *)
Definition digit_ranges : list (N * N) :=
  [(48, 57); (178, 179); (185, 185); (1632, 1641); (1776, 1785);
   (1984, 1993); (2406, 2415); (2534, 2543); (2662, 2671); (2790, 2799);
   (2918, 2927); (3046, 3055); (3174, 3183); (3302, 3311); (3430, 3439);
   (3558, 3567); (3664, 3673); (3792, 3801); (3872, 3881); (4160, 4169);
   (4240, 4249); (4969, 4977); (6112, 6121); (6160, 6169); (6470, 6479);
   (6608, 6618); (6784, 6793); (6800, 6809); (6992, 7001); (7088, 7097);
   (7232, 7241); (7248, 7257); (8304, 8304); (8308, 8313); (8320, 8329);
   (9312, 9320); (9332, 9340); (9352, 9360); (9450, 9450); (9461, 9469);
   (9471, 9471); (10102, 10110); (10112, 10120); (10122, 10130);
   (42528, 42537); (43216, 43225); (43264, 43273); (43472, 43481);
   (43504, 43513); (43600, 43609); (44016, 44025); (65296, 65305);
   (66720, 66729); (68160, 68163); (68912, 68921); (69216, 69224);
   (69714, 69722); (69734, 69743); (69872, 69881); (69942, 69951);
   (70096, 70105); (70384, 70393); (70736, 70745); (70864, 70873);
   (71248, 71257); (71360, 71369); (71472, 71481); (71904, 71913);
   (72016, 72025); (72784, 72793); (73040, 73049); (73120, 73129);
   (92768, 92777); (92864, 92873); (93008, 93017); (120782, 120831);
   (123200, 123209); (123632, 123641); (125264, 125273); (127232, 127242);
   (130032, 130041)]%N.

Definition is_digit_code_point (p : N) : bool :=
  existsb (fun r : N * N => (r.1 <=? p)%N && (p <=? r.2)%N) digit_ranges.

(** [s.isdigit()]: every character is a digit and there is at least
    one. *)
Definition isdigit (s : string) : bool :=
  match code_points s with
  | Some (p :: ps) => forallb is_digit_code_point (p :: ps)
  | _ => false
  end.

(** [s.replace(old, '')] for a non-empty [old]: a left-to-right scan
    that drops every non-overlapping occurrence of [old].  [skip]
    counts the characters of a matched occurrence still to drop. *)
Fixpoint remove_all_from (old : string) (skip : nat) (s : string) : string :=
  match s with
  | EmptyString => EmptyString
  | String c s' =>
      match skip with
      | S k => remove_all_from old k s'
      | O =>
          if String.prefix old s
          then remove_all_from old (String.length old - 1) s'
          else String c (remove_all_from old 0 s')
      end
  end.

Definition remove_all (old s : string) : string := remove_all_from old 0 s.

(** ['.'.join(parts)] *)
Fixpoint join (sep : string) (parts : list string) : string :=
  match parts with
  | [] => EmptyString
  | [p] => p
  | p :: rest => p +:+ sep +:+ join sep rest
  end.

(** [c * n] *)
Fixpoint repeat_char (c : ascii) (n : nat) : string :=
  match n with
  | O => EmptyString
  | S k => String c (repeat_char c k)
  end.

(** Python truthiness of a string: [not s] holds for the empty string. *)
Definition is_empty (s : string) : bool :=
  match s with
  | EmptyString => true
  | String _ _ => false
  end.

End PyStr.

(** ** The manifest

    [index.json] is a list of category objects.  The script reads every
    field with [dict.get], so each field may be absent. *)

Record Template := {
  name : option string;
  mediaSubtype : option string
}.

Record Category := {
  title : option string;
  templates : option (list Template)
}.

Definition Manifest := list Category.

(** [d.get(key, dflt)] on a field that may be absent. *)
Definition get {A} (field : option A) (dflt : A) : A := default dflt field.

(** How an f-string prints [category.get('title')]: a missing title is
    Python's [None]. *)
Definition format_optional (field : option string) : string :=
  match field with
  | Some s => s
  | None => "None"
  end.

(** ** The templates directory

    [path_exists d p] is [(templates_dir / p).exists()], and
    [file_names d] is [set(f.name for f in templates_dir.iterdir() if
    f.is_file())].  One value of [Directory] is one state of the disk:
    every query of a run is answered from it. *)

Record Directory := {
  path_exists : string -> bool;
  file_names : gset string
}.

(** A directory that holds regular files only, with the given names. *)
Definition flat_directory (names : gset string) : Directory :=
  {| path_exists := fun p => bool_decide (p ∈ names); file_names := names |}.

(** ** [check_file_consistency] *)

Definition missing_name_error (category : Category) : string :=
  "Template in category '" +:+ format_optional (title category) +:+ "' missing name".

Definition workflow_not_found_error (workflow : string) : string :=
  "Referenced workflow file not found: " +:+ workflow.

Definition thumbnail_not_found_error (thumbnail : string) : string :=
  "Referenced thumbnail file not found: " +:+ thumbnail.

Definition orphaned_workflow_warning (orphan : string) : string :=
  "Workflow file not referenced in index.json: " +:+ orphan.

Definition orphaned_media_warning (orphan : string) : string :=
  "Media file not referenced in index.json: " +:+ orphan.

(** [f"{name}.json"] *)
Definition workflow_file (n : string) : string := n +:+ ".json".

(** [f"{name}-{i}.{media_subtype}"] *)
Definition thumbnail_file (n : string) (i : nat) (media_subtype : string) : string :=
  n +:+ "-" +:+ pretty i +:+ "." +:+ media_subtype.

(** The local variables of [check_file_consistency], together with the
    log of the paths whose existence the function has asked the
    directory for, oldest first. *)
Record Scan := {
  errors : list string;
  warnings : list string;
  referenced_workflows : gset string;
  referenced_thumbnails : gset string;
  probed : list string
}.

Definition scan_start : Scan :=
  {| errors := []; warnings := []; referenced_workflows := ∅;
     referenced_thumbnails := ∅; probed := [] |}.

Definition add_error (e : string) (st : Scan) : Scan :=
  {| errors := errors st ++ [e]; warnings := warnings st;
     referenced_workflows := referenced_workflows st;
     referenced_thumbnails := referenced_thumbnails st; probed := probed st |}.

Definition add_warning (w : string) (st : Scan) : Scan :=
  {| errors := errors st; warnings := warnings st ++ [w];
     referenced_workflows := referenced_workflows st;
     referenced_thumbnails := referenced_thumbnails st; probed := probed st |}.

Definition add_workflow (w : string) (st : Scan) : Scan :=
  {| errors := errors st; warnings := warnings st;
     referenced_workflows := {[w]} ∪ referenced_workflows st;
     referenced_thumbnails := referenced_thumbnails st; probed := probed st |}.

Definition add_thumbnail (t : string) (st : Scan) : Scan :=
  {| errors := errors st; warnings := warnings st;
     referenced_workflows := referenced_workflows st;
     referenced_thumbnails := {[t]} ∪ referenced_thumbnails st; probed := probed st |}.

(** [(templates_dir / p).exists()], recorded in the log. *)
Definition probe (d : Directory) (p : string) (st : Scan) : bool * Scan :=
  (path_exists d p,
   {| errors := errors st; warnings := warnings st;
      referenced_workflows := referenced_workflows st;
      referenced_thumbnails := referenced_thumbnails st;
      probed := probed st ++ [p] |}).

(** Body of [for i in range(1, 10)]. *)
Definition probe_thumbnail (d : Directory) (n media_subtype : string)
    (st : Scan) (i : nat) : Scan :=
  let thumbnail := thumbnail_file n i media_subtype in
  let '(found, st) := probe d thumbnail st in
  if found then add_thumbnail thumbnail st else st.

(** Body of [for template in category.get('templates', [])]. *)
Definition collect_template (d : Directory) (category : Category)
    (st : Scan) (template : Template) : Scan :=
  let n := get (name template) "" in
  if PyStr.is_empty n then add_error (missing_name_error category) st
  else
    let st := add_workflow (workflow_file n) st in
    let media_subtype := get (mediaSubtype template) "" in
    if PyStr.is_empty media_subtype then st
    else foldl (probe_thumbnail d n media_subtype) st (seq 1 9).

(** Body of [for category in index_data]. *)
Definition collect_category (d : Directory) (st : Scan) (category : Category) : Scan :=
  foldl (collect_template d category) st (get (templates category) []).

Definition collect_references (d : Directory) (index_data : Manifest) (st : Scan) : Scan :=
  foldl (collect_category d) st index_data.

(** [for workflow in referenced_workflows: ...] *)
Definition check_workflow_exists (d : Directory) (st : Scan) (workflow : string) : Scan :=
  let '(found, st) := probe d workflow st in
  if found then st else add_error (workflow_not_found_error workflow) st.

Definition check_workflows_exist (d : Directory) (st : Scan) : Scan :=
  foldl (check_workflow_exists d) st (elements (referenced_workflows st)).

(** [for thumbnail in referenced_thumbnails: ...] *)
Definition check_thumbnail_exists (d : Directory) (st : Scan) (thumbnail : string) : Scan :=
  let '(found, st) := probe d thumbnail st in
  if found then st else add_error (thumbnail_not_found_error thumbnail) st.

Definition check_thumbnails_exist (d : Directory) (st : Scan) : Scan :=
  foldl (check_thumbnail_exists d) st (elements (referenced_thumbnails st)).

Definition special_files : gset string :=
  {[ "index.json"; "index.schema.json"; ".gitignore"; "README.md" ]}.

Definition all_files (d : Directory) : gset string := file_names d ∖ special_files.

Definition workflow_files (d : Directory) : gset string :=
  filter (fun f => Is_true (PyStr.endswith f ".json")) (all_files d).

Definition media_files (d : Directory) : gset string := all_files d ∖ workflow_files d.

(** The condition of the inner [if] of the orphaned-media loop. *)
Definition matches_template (template_name media_file : string) : bool :=
  PyStr.startswith media_file (template_name +:+ "-") &&
  PyStr.isdigit
    (PyStr.before_dot (PyStr.slice_from (String.length template_name + 1) media_file)).

(** [[w.replace('.json', '') for w in referenced_workflows]] *)
Definition template_names (workflows : gset string) : list string :=
  PyStr.remove_all ".json" <$> elements workflows.

(** The flag [is_referenced] once the inner loop has ended. *)
Definition is_referenced (workflows : gset string) (media_file : string) : bool :=
  existsb (fun template_name => matches_template template_name media_file)
          (template_names workflows).

Definition potential_orphans (d : Directory) (workflows : gset string) : list string :=
  foldl (fun orphans media_file =>
           if is_referenced workflows media_file then orphans
           else orphans ++ [media_file])
        [] (elements (media_files d)).

Definition report_orphans (d : Directory) (st : Scan) : Scan :=
  let orphaned_workflows := workflow_files d ∖ referenced_workflows st in
  let st := foldl (fun st orphan => add_warning (orphaned_workflow_warning orphan) st)
                  st (elements orphaned_workflows) in
  foldl (fun st orphan => add_warning (orphaned_media_warning orphan) st)
        st (potential_orphans d (referenced_workflows st)).

(** The state of the function when it reaches its [return]. *)
Definition file_consistency_scan (index_data : Manifest) (d : Directory) : Scan :=
  report_orphans d
    (check_thumbnails_exist d
       (check_workflows_exist d
          (collect_references d index_data scan_start))).

Definition check_file_consistency (index_data : Manifest) (d : Directory)
    : bool * list string * list string :=
  let st := file_consistency_scan index_data d in
  (bool_decide (length (errors st) = 0), errors st, warnings st).

(** ** [check_duplicate_names] *)

Definition duplicate_name_error (n first_title category_title : string) : string :=
  "Duplicate template name '" +:+ n +:+ "' found in categories '" +:+
  first_title +:+ "' and '" +:+ category_title +:+ "'".

(** The local variables [errors] and [seen_names]. *)
Definition Seen : Type := list string * gmap string string.

(** Body of [for template in category.get('templates', [])]. *)
Definition note_template (category_title : string) (st : Seen) (template : Template) : Seen :=
  let '(errs, seen_names) := st in
  let n := get (name template) "" in
  match seen_names !! n with
  | Some first_title =>
      (errs ++ [duplicate_name_error n first_title category_title], seen_names)
  | None => (errs, <[n := category_title]> seen_names)
  end.

(** Body of [for category in index_data]. *)
Definition note_category (st : Seen) (category : Category) : Seen :=
  let category_title := get (title category) "Unknown" in
  foldl (note_template category_title) st (get (templates category) []).

Definition check_duplicate_names (index_data : Manifest) : bool * list string :=
  let '(errs, _) := foldl note_category ([], ∅) index_data in
  (bool_decide (length errs = 0), errs).

(** ** [check_required_thumbnails] *)

Definition missing_thumbnail_error (n media_subtype : string) : string :=
  "Missing required thumbnail: " +:+ n +:+ "-1." +:+ media_subtype.

(** [templates_dir / f"{name}-1.{media_subtype}"] *)
Definition thumbnail_1 (n media_subtype : string) : string :=
  n +:+ "-1." +:+ media_subtype.

(** Body of [for template in category.get('templates', [])]. *)
Definition require_thumbnail (d : Directory) (errs : list string) (template : Template)
    : list string :=
  let n := get (name template) "" in
  let media_subtype := get (mediaSubtype template) "" in
  if PyStr.is_empty n || PyStr.is_empty media_subtype then errs
  else if path_exists d (thumbnail_1 n media_subtype) then errs
  else errs ++ [missing_thumbnail_error n media_subtype].

Definition require_thumbnails_in (d : Directory) (errs : list string) (category : Category)
    : list string :=
  foldl (require_thumbnail d) errs (get (templates category) []).

Definition check_required_thumbnails (index_data : Manifest) (d : Directory)
    : bool * list string :=
  let errs := foldl (require_thumbnails_in d) [] index_data in
  (bool_decide (length errs = 0), errs).

(** ** [validate_schema] and [main] *)

(** The result of [load_json]: the parsed document, or the text of the
    exception it raised. *)
Inductive Load (A : Type) :=
  | Loaded (document : A)
  | LoadFailed (exception : string).
Arguments Loaded {A} document.
Arguments LoadFailed {A} exception.

(** The ways [jsonschema.validate] ends: it returns, it raises
    [ValidationError] with a message and a path (its items already
    printed with [str]), or it raises something else. *)
Inductive Validation :=
  | Valid
  | ValidationError (message : string) (path : list string)
  | OtherException (text : string).

Section Driver.

(** The schema document and the validation routine of the
    [jsonschema] package are not part of the script. *)
Variable Schema : Type.
Variable jsonschema_validate : Manifest -> Schema -> Validation.

Definition validate_schema (index_data : Manifest) (schema_file : Load Schema)
    : bool * list string :=
  match schema_file with
  | LoadFailed e => (false, ["Unexpected error during validation: " +:+ e])
  | Loaded schema =>
      match jsonschema_validate index_data schema with
      | Valid => (true, [])
      | ValidationError message path =>
          (false,
           ["Schema validation error: " +:+ message] ++
           match path with
           | [] => []
           | _ :: _ => ["  at path: " +:+ PyStr.join "." path]
           end)
      | OtherException text =>
          (false, ["Unexpected error during validation: " +:+ text])
      end
  end.

(** What a run of [main] depends on. *)
Record World := {
  templates_dir : string;            (* the path, as printed *)
  directory : Directory;
  index_file : Load Manifest;        (* load_json(index_path) *)
  schema_file : Load Schema;         (* load_json(schema_path) *)
  is_github_actions : bool
}.

Definition nl : string := String (ascii_of_nat 10) EmptyString.

Definition index_path (w : World) : string := templates_dir w +:+ "/index.json".
Definition schema_path (w : World) : string := templates_dir w +:+ "/index.schema.json".

Definition banner (w : World) : list string :=
  [ "🔍 Validating ComfyUI Workflow Templates...";
    "   Templates directory: " +:+ templates_dir w ].

Definition index_not_found (w : World) : string :=
  "❌ Error: index.json not found at " +:+ index_path w.
Definition schema_not_found (w : World) : string :=
  "❌ Error: index.schema.json not found at " +:+ schema_path w.
Definition index_load_error (e : string) : string :=
  "❌ Error loading index.json: " +:+ e.

Definition stage_1 : string := nl +:+ "1️⃣  Validating against JSON schema...".
Definition stage_2 : string := nl +:+ "2️⃣  Checking file consistency...".
Definition stage_3 : string := nl +:+ "3️⃣  Checking for duplicate names...".
Definition stage_4 : string := nl +:+ "4️⃣  Checking required thumbnails...".

(** The lines printed per warning and per error. *)
Definition print_warning (w : World) (warning : string) : list string :=
  ("  ⚠️  " +:+ warning) ::
  (if is_github_actions w
   then ["::warning file=templates/index.json::" +:+ warning] else []).

Definition print_error (w : World) (error : string) : list string :=
  ("   • " +:+ error) ::
  (if is_github_actions w
   then ["::error file=templates/index.json::" +:+ error] else []).

(** The state of [main]: what it has printed, one string per call of
    [print], and its local lists [all_errors] and [all_warnings]. *)
Record Run := {
  stdout : list string;
  all_errors : list string;
  all_warnings : list string
}.

Definition print (line : string) (r : Run) : Run :=
  {| stdout := stdout r ++ [line]; all_errors := all_errors r;
     all_warnings := all_warnings r |}.

Definition print_all (lines : list string) (r : Run) : Run :=
  {| stdout := stdout r ++ lines; all_errors := all_errors r;
     all_warnings := all_warnings r |}.

(** [all_errors.extend(errs)] *)
Definition extend_errors (errs : list string) (r : Run) : Run :=
  {| stdout := stdout r; all_errors := all_errors r ++ errs;
     all_warnings := all_warnings r |}.

(** [all_warnings.extend(warns)] *)
Definition extend_warnings (warns : list string) (r : Run) : Run :=
  {| stdout := stdout r; all_errors := all_errors r;
     all_warnings := all_warnings r ++ warns |}.

(** Python truthiness of a list. *)
Definition nonempty {A} (l : list A) : bool :=
  match l with
  | [] => false
  | _ :: _ => true
  end.

Definition schema_stage (w : World) (index_data : Manifest) (r : Run) : Run :=
  let r := print stage_1 r in
  let '(valid, errs) := validate_schema index_data (schema_file w) in
  if valid then print "   ✅ Schema validation passed" r
  else extend_errors errs (print "   ❌ Schema validation failed" r).

Definition consistency_stage (w : World) (index_data : Manifest) (r : Run) : Run :=
  let r := print stage_2 r in
  let '(valid, errs, warns) := check_file_consistency index_data (directory w) in
  let r :=
    if valid && negb (nonempty warns)
    then print "   ✅ File consistency check passed" r
    else if valid && nonempty warns
    then print "   ⚠️  File consistency check passed with warnings" r
    else print "   ❌ File consistency check failed" r in
  extend_warnings warns (extend_errors errs r).

Definition duplicates_stage (index_data : Manifest) (r : Run) : Run :=
  let r := print stage_3 r in
  let '(valid, errs) := check_duplicate_names index_data in
  if valid then print "   ✅ No duplicate names found" r
  else extend_errors errs (print "   ❌ Duplicate names found" r).

Definition thumbnails_stage (w : World) (index_data : Manifest) (r : Run) : Run :=
  let r := print stage_4 r in
  let '(valid, errs) := check_required_thumbnails index_data (directory w) in
  if valid then print "   ✅ All templates have thumbnails" r
  else extend_errors errs (print "   ❌ Missing thumbnails" r).

(** The four stages, in the order [main] runs them. *)
Definition run_checks (w : World) (index_data : Manifest) (r : Run) : Run :=
  thumbnails_stage w index_data
    (duplicates_stage index_data
       (consistency_stage w index_data
          (schema_stage w index_data r))).

Definition warnings_section (w : World) (r : Run) : Run :=
  if nonempty (all_warnings r)
  then print_all (all_warnings r ≫= print_warning w) (print (nl +:+ "Warnings:") r)
  else r.

(** The summary, and the value [main] returns. *)
Definition summary (w : World) (r : Run) : list string * Z :=
  let r := print (nl +:+ PyStr.repeat_char "=" 50) r in
  if nonempty (all_errors r)
  then
    let r := print ("❌ Validation failed with " +:+ pretty (length (all_errors r))
                    +:+ " error(s):" +:+ nl) r in
    (stdout (print_all (all_errors r ≫= print_error w) r), 1%Z)
  else if nonempty (all_warnings r)
  then
    (stdout (print ("✅ All validations passed with "
                    +:+ pretty (length (all_warnings r)) +:+ " warning(s)!") r), 0%Z)
  else (stdout (print "✅ All validations passed!" r), 0%Z).

(** [main]: the lines printed and the exit status. *)
Definition main (w : World) : list string * Z :=
  let r := {| stdout := banner w; all_errors := []; all_warnings := [] |} in
  if negb (path_exists (directory w) "index.json")
  then (stdout (print (index_not_found w) r), 1%Z)
  else if negb (path_exists (directory w) "index.schema.json")
  then (stdout (print (schema_not_found w) r), 1%Z)
  else
    match index_file w with
    | LoadFailed e => (stdout (print (index_load_error e) r), 1%Z)
    | Loaded index_data =>
        summary w (warnings_section w (run_checks w index_data r))
    end.

End Driver.

Arguments templates_dir {Schema} w.
Arguments directory {Schema} w.
Arguments index_file {Schema} w.
Arguments schema_file {Schema} w.
Arguments is_github_actions {Schema} w.

(** ** Definitions used to state the properties *)

(** The templates of a manifest with their categories, in the order the
    nested loops of the three checks visit them. *)
Definition all_entries (index_data : Manifest) : list (Category * Template) :=
  index_data ≫= fun category => pair category <$> get (templates category) [].

Definition template_name (template : Template) : string := get (name template) "".
Definition template_subtype (template : Template) : string :=
  get (mediaSubtype template) "".

(** The required-thumbnail check reports [template]. *)
Definition lacks_thumbnail (d : Directory) (template : Template) : Prop :=
  template_name template ≠ "" ∧ template_subtype template ≠ "" ∧
  path_exists d (thumbnail_1 (template_name template) (template_subtype template)) = false.



(** The categories of the templates of empty or absent name, one per such
    template, in manifest order. *)
Definition nameless_categories (index_data : Manifest) : list Category :=
  (filter (fun e : Category * Template => template_name e.2 = "")
          (all_entries index_data)).*1.

(** What the required-thumbnail check adds to its error list for one
    template. *)
Definition thumbnail_report (d : Directory) (template : Template) : list string :=
  if decide (lacks_thumbnail d template)
  then ["Missing required thumbnail: " +:+
        thumbnail_1 (template_name template) (template_subtype template)]
  else [].

(** What the first loop of [check_file_consistency] does for one
    template: the error it records, the workflow file it references, the
    thumbnail names it asks the directory for, and the ones it finds. *)
Definition name_errors (e : Category * Template) : list string :=
  if PyStr.is_empty (template_name e.2) then [missing_name_error e.1] else [].

Definition workflow_of (template : Template) : list string :=
  if PyStr.is_empty (template_name template) then []
  else [workflow_file (template_name template)].

Definition thumbnail_candidates (template : Template) : list string :=
  if PyStr.is_empty (template_name template)
     || PyStr.is_empty (template_subtype template)
  then []
  else (fun i => thumbnail_file (template_name template) i (template_subtype template))
       <$> seq 1 9.

Definition found_thumbnails (d : Directory) (template : Template) : list string :=
  filter (fun f => Is_true (path_exists d f)) (thumbnail_candidates template).

(** The two sets when the first loop has ended. *)
Definition workflows_of (index_data : Manifest) : gset string :=
  list_to_set ((all_entries index_data).*2 ≫= workflow_of).

Definition thumbnails_of (d : Directory) (index_data : Manifest) : gset string :=
  list_to_set ((all_entries index_data).*2 ≫= found_thumbnails d).

(** The paths of a list that do not exist. *)
Definition missing (d : Directory) (paths : list string) : list string :=
  filter (fun p => path_exists d p = false) paths.

(** The name the orphaned-media loop derives from a template: its
    workflow file name with every [.json] removed. *)
Definition referenced_name (template : Template) : string :=
  PyStr.remove_all ".json" (workflow_file (template_name template)).

(** [f] matches the pattern of some named template of the manifest. *)
Definition exempt (index_data : Manifest) (f : string) : Prop :=
  ∃ c t, c ∈ index_data ∧ t ∈ get (templates c) [] ∧ template_name t ≠ "" ∧
         matches_template (referenced_name t) f = true.

(** The file a tenth thumbnail of a template would be. *)
Definition tenth_thumbnail (template : Template) : string :=
  thumbnail_file (template_name template) 10 (template_subtype template).


(** A manifest with the template [flux_basic], thumbnails declared as
    [webp], and a directory that also holds [flux_basic-1.png]. *)
Definition flux_manifest : Manifest :=
  [ {| title := Some "Basics";
       templates := Some [ {| name := Some "flux_basic";
                              mediaSubtype := Some "webp" |} ] |} ].

Definition flux_directory : Directory :=
  flat_directory {[ "index.json"; "index.schema.json"; "flux_basic.json";
                    "flux_basic-1.webp"; "flux_basic-1.png" ]}.

(** Two categories that each hold a template named [flux_basic]. *)
Definition twice_manifest : Manifest :=
  [ {| title := Some "A";
       templates := Some [ {| name := Some "flux_basic";
                              mediaSubtype := Some "webp" |} ] |};
    {| title := Some "B";
       templates := Some [ {| name := Some "flux_basic";
                              mediaSubtype := Some "webp" |} ] |} ].

(** Two templates without a usable name: one has no [name] field, the
    other an empty one. *)
Definition nameless_manifest : Manifest :=
  [ {| title := Some "A";
       templates := Some [ {| name := None; mediaSubtype := Some "webp" |} ] |};
    {| title := Some "B";
       templates := Some [ {| name := Some ""; mediaSubtype := None |} ] |} ].




(** What the duplicate-name check reads of the manifest: for every
    template, in manifest order, the title of its category and its name,
    with the defaults of the two [dict.get] calls. *)
Definition titled_names (index_data : Manifest) : list (string * string) :=
  (fun e : Category * Template => (get (title e.1) "Unknown", template_name e.2))
  <$> all_entries index_data.

(** The errors the duplicate-name loop adds, and its dictionary at the
    end, when it starts from the dictionary [seen]. *)
Fixpoint duplicates_from (seen : gmap string string) (es : list (string * string))
    : list string :=
  match es with
  | [] => []
  | (category_title, n) :: es =>
      match seen !! n with
      | Some first_title =>
          duplicate_name_error n first_title category_title :: duplicates_from seen es
      | None => duplicates_from (<[n := category_title]> seen) es
      end
  end.

Fixpoint seen_after (seen : gmap string string) (es : list (string * string))
    : gmap string string :=
  match es with
  | [] => seen
  | (category_title, n) :: es =>
      match seen !! n with
      | Some _ => seen_after seen es
      | None => seen_after (<[n := category_title]> seen) es
      end
  end.

(** The category title of the first entry of [es] named [k]. *)
Fixpoint first_title (es : list (string * string)) (k : string) : option string :=
  match es with
  | [] => None
  | (category_title, n) :: es =>
      if decide (n = k) then Some category_title else first_title es k
  end.

(** The duplicate-name errors in words: going through the entries in
    order, an entry whose name occurs among the entries [before] it is
    reported against the title of the first of them; an entry whose name
    is new is not reported. *)
Fixpoint flagged_entries (before es : list (string * string)) : list string :=
  match es with
  | [] => []
  | (category_title, n) :: es =>
      match first_title before n with
      | Some first => [duplicate_name_error n first category_title]
      | None => []
      end ++ flagged_entries (before ++ [(category_title, n)]) es
  end.

(** A run in which both files exist and the manifest loads, and the
    schema file is not JSON. *)
Definition broken_schema_world : World unit :=
  {| templates_dir := "/repo/templates";
     directory := flat_directory {[ "index.json"; "index.schema.json";
                                    "flux_basic.json"; "flux_basic-1.webp" ]};
     index_file := Loaded flux_manifest;
     schema_file := LoadFailed "Expecting value: line 1 column 1 (char 0)";
     is_github_actions := false |}.

(** A run on a consistent directory with one unreferenced file. *)
Definition orphan_world : World unit :=
  {| templates_dir := "/repo/templates";
     directory := flat_directory {[ "index.json"; "index.schema.json";
                                    "flux_basic.json"; "flux_basic-1.webp";
                                    "orphan.json" ]};
     index_file := Loaded flux_manifest;
     schema_file := Loaded ();
     is_github_actions := false |}.

(** The headings of the four check stages. *)
Definition stage_lines : list string := [stage_1; stage_2; stage_3; stage_4].

(** The errors of the four checks, in the order [main] collects them. *)
Definition collected_errors (Schema : Type)
    (validate : Manifest -> Schema -> Validation)
    (w : World Schema) (index_data : Manifest) : list string :=
  (validate_schema Schema validate index_data (schema_file w)).2 ++
  (check_file_consistency index_data (directory w)).1.2 ++
  (check_duplicate_names index_data).2 ++
  (check_required_thumbnails index_data (directory w)).2.

(** The manifest with the [mediaSubtype] of every template replaced by
    what [g] gives for it. *)
Definition with_subtypes (g : Template -> option string) (index_data : Manifest)
    : Manifest :=
  (fun c =>
     {| title := title c;
        templates :=
          (fun ts : list Template =>
             (fun t => {| name := name t; mediaSubtype := g t |}) <$> ts)
          <$> templates c |}) <$> index_data.

(** The same run with another printed path of the templates directory
    and another value of [GITHUB_ACTIONS]. *)
Definition relabel {Schema : Type} (text : string) (flag : bool) (w : World Schema)
    : World Schema :=
  {| templates_dir := text; directory := directory w; index_file := index_file w;
     schema_file := schema_file w; is_github_actions := flag |}.

(** A line in the format of the CI annotations, [::warning ...] or
    [::error ...]. *)
Definition is_annotation (line : string) : bool := PyStr.startswith line "::".

(** What the four stages and the summary print on a run without errors
    and without warnings. *)
Definition clean_run_lines : list string :=
  [ stage_1; "   ✅ Schema validation passed";
    stage_2; "   ✅ File consistency check passed";
    stage_3; "   ✅ No duplicate names found";
    stage_4; "   ✅ All templates have thumbnails";
    nl +:+ PyStr.repeat_char "=" 50; "✅ All validations passed!" ].

(** Three categories that each hold a template named [flux_basic]. *)
Definition thrice_manifest : Manifest :=
  [ {| title := Some "A";
       templates := Some [ {| name := Some "flux_basic"; mediaSubtype := None |} ] |};
    {| title := Some "B";
       templates := Some [ {| name := Some "flux_basic"; mediaSubtype := None |} ] |};
    {| title := Some "C";
       templates := Some [ {| name := Some "flux_basic"; mediaSubtype := None |} ] |} ].

(** The rest of [s] after [p], when [s] starts with [p]. *)
Fixpoint strip_prefix (p s : string) : option string :=
  match p, s with
  | EmptyString, _ => Some s
  | String a p', String b s' => if Ascii.eqb a b then strip_prefix p' s' else None
  | String _ _, EmptyString => None
  end.

(** The texts that the lines of [out] starting with [p] have after it,
    in order. *)
Definition printed_after (p : string) (out : list string) : list string :=
  omap (strip_prefix p) out.

(** The lines of the four stages: each heading with the verdict printed
    for the result of its check. *)
Definition stage_report (Schema : Type) (validate : Manifest -> Schema -> Validation)
    (w : World Schema) (index_data : Manifest) : list string :=
  [ stage_1;
    if (validate_schema Schema validate index_data (schema_file w)).1
    then "   ✅ Schema validation passed" else "   ❌ Schema validation failed";
    stage_2;
    if (check_file_consistency index_data (directory w)).1.1
    then if nonempty (check_file_consistency index_data (directory w)).2
         then "   ⚠️  File consistency check passed with warnings"
         else "   ✅ File consistency check passed"
    else "   ❌ File consistency check failed";
    stage_3;
    if (check_duplicate_names index_data).1
    then "   ✅ No duplicate names found" else "   ❌ Duplicate names found";
    stage_4;
    if (check_required_thumbnails index_data (directory w)).1
    then "   ✅ All templates have thumbnails" else "   ❌ Missing thumbnails" ].

(** The warnings section and the summary of the report for given lists
    of warnings and errors. *)
Definition warnings_report {Schema : Type} (w : World Schema) (warns : list string)
    : list string :=
  match warns with
  | [] => []
  | _ :: _ => (nl +:+ "Warnings:") :: (warns ≫= print_warning Schema w)
  end.

Definition summary_report {Schema : Type} (w : World Schema) (errs warns : list string)
    : list string :=
  (nl +:+ PyStr.repeat_char "=" 50) ::
  match errs, warns with
  | _ :: _, _ =>
      ("❌ Validation failed with " +:+ pretty (length errs) +:+ " error(s):" +:+ nl)
      :: (errs ≫= print_error Schema w)
  | [], _ :: _ =>
      ["✅ All validations passed with " +:+ pretty (length warns) +:+ " warning(s)!"]
  | [], [] => ["✅ All validations passed!"]
  end.

(** The UTF-8 encoding of a code point, and of a sequence of code
    points: the bytes that hold a text in the model. *)
Definition utf8_point (p : N) : string :=
  if (p <? 128)%N then String (ascii_of_N p) EmptyString
  else if (p <? 2048)%N then
    String (ascii_of_N (192 + p / 64))
      (String (ascii_of_N (128 + p mod 64)) EmptyString)
  else if (p <? 65536)%N then
    String (ascii_of_N (224 + p / 4096))
      (String (ascii_of_N (128 + (p / 64) mod 64))
         (String (ascii_of_N (128 + p mod 64)) EmptyString))
  else
    String (ascii_of_N (240 + p / 262144))
      (String (ascii_of_N (128 + (p / 4096) mod 64))
         (String (ascii_of_N (128 + (p / 64) mod 64))
            (String (ascii_of_N (128 + p mod 64)) EmptyString))).

Definition utf8 (ps : list N) : string :=
  foldr (fun p s => utf8_point p +:+ s) EmptyString ps.





(** [sub in s] *)
Fixpoint contains (sub s : string) : bool :=
  String.prefix sub s ||
  match s with
  | EmptyString => false
  | String _ s' => contains sub s'
  end.

(** * Properties *)

(** ** Strings *)

Example startswith_ex : PyStr.startswith "flux_basic-1.png" "flux_basic-" = true.
Proof. reflexivity. Qed.

Example endswith_ex :
  PyStr.endswith "a.json" ".json" = true /\ PyStr.endswith "a.jsonx" ".json" = false.
Proof. split; reflexivity. Qed.

Example before_dot_ex :
  PyStr.before_dot "10.tar.gz" = "10" /\ PyStr.before_dot "abc" = "abc".
Proof. split; reflexivity. Qed.

Example remove_all_ex :
  PyStr.remove_all ".json" "a.jsonb.json" = "ab" /\
  PyStr.remove_all ".json" "flux_basic.json" = "flux_basic".
Proof. split; reflexivity. Qed.

(** [str.isdigit] on ASCII digits, on the Arabic-Indic digit three and
    the superscript two, on a letter, and on the overlong two-byte form
    of [1], which is not UTF-8. *)
Example isdigit_ex :
  PyStr.isdigit "10" = true /\ PyStr.isdigit "" = false /\
  PyStr.isdigit "1a" = false /\ PyStr.isdigit "٣" = true /\
  PyStr.isdigit "1²" = true /\ PyStr.isdigit "é" = false /\
  PyStr.isdigit (String (ascii_of_N 192) (String (ascii_of_N 177) EmptyString)) = false.
Proof. repeat split; reflexivity. Qed.

Example utf8_ex : utf8 [49; 1635; 178]%N = "1٣²".
Proof. reflexivity. Qed.

#[local] Arguments String.append : simpl nomatch.

Section Strings.

Lemma is_empty_true s : PyStr.is_empty s = true ↔ s = "".
Proof. destruct s; simpl; split; congruence. Qed.

Lemma is_empty_false s : PyStr.is_empty s = false ↔ s ≠ "".
Proof. destruct s; simpl; split; congruence. Qed.

Lemma append_cancel_l p a b : p +:+ a = p +:+ b → a = b.
Proof. induction p as [|c p IH]; simpl; [done|]. intros [= H]. auto. Qed.

Lemma append_assoc a b c : (a +:+ b) +:+ c = a +:+ b +:+ c.
Proof. induction a as [|x a IH]; simpl; [done|]. by rewrite IH. Qed.

Lemma length_append a b :
  String.length (a +:+ b) = String.length a + String.length b.
Proof. induction a as [|x a IH]; simpl; [done|]. by rewrite IH. Qed.

Lemma prefix_append p r : String.prefix p (p +:+ r) = true.
Proof.
  induction p as [|c p IH]; simpl; [by destruct r|].
  destruct (ascii_dec c c); [done|congruence].
Qed.

Lemma prefix_inv p s : String.prefix p s = true → ∃ r, s = p +:+ r.
Proof.
  revert s. induction p as [|c p IH]; intros s.
  - intros _. by exists s.
  - destruct s as [|c' s]; simpl; [done|].
    destruct (ascii_dec c c') as [->|]; [|done].
    intros [r ->]%IH. by exists r.
Qed.

Lemma slice_from_append p r : PyStr.slice_from (String.length p) (p +:+ r) = r.
Proof. induction p as [|c p IH]; simpl; [by destruct r|done]. Qed.

End Strings.

(** ** Loops that only append to a list *)

Lemma foldl_append {A B} (f : B → list A) (l : list B) (acc : list A) :
  foldl (fun acc x => acc ++ f x) acc l = acc ++ (l ≫= f).
Proof.
  revert acc. induction l as [|x l IH]; intros acc; simpl.
  - by rewrite app_nil_r.
  - by rewrite IH, <- List.app_assoc.
Qed.

(** The nested loops visit [all_entries]. *)
Lemma foldl_entries {S} (body : Category → S → Template → S) (m : Manifest) (st : S) :
  foldl (fun st category => foldl (body category) st (get (templates category) [])) st m
  = foldl (fun st (e : Category * Template) => body e.1 st e.2) st (all_entries m).
Proof.
  revert st. induction m as [|c m IH]; intros st; [done|].
  unfold all_entries. rewrite bind_cons, foldl_app. simpl.
  rewrite IH. f_equal. by rewrite foldl_fmap.
Qed.

Lemma all_entries_app m1 m2 : all_entries (m1 ++ m2) = all_entries m1 ++ all_entries m2.
Proof. unfold all_entries. apply bind_app. Qed.

Lemma all_entries_no_templates t m : 
  all_entries ({| title := t; templates := None |} :: m) = all_entries m.
Proof. done. Qed.

(** ** The required-thumbnail check *)

Section RequiredThumbnails.

Variable d : Directory.

Lemma require_thumbnail_report errs template :
  require_thumbnail d errs template = errs ++ thumbnail_report d template.
Proof.
  unfold require_thumbnail, thumbnail_report, lacks_thumbnail,
    template_name, template_subtype.
  destruct (PyStr.is_empty (get (name template) "")) eqn:Hn; simpl.
  { apply is_empty_true in Hn. rewrite decide_False, app_nil_r; [done|tauto]. }
  destruct (PyStr.is_empty (get (mediaSubtype template) "")) eqn:Hm; simpl.
  { apply is_empty_true in Hm. rewrite decide_False, app_nil_r; [done|tauto]. }
  apply is_empty_false in Hn, Hm.
  destruct (path_exists d _) eqn:He.
  - rewrite decide_False, app_nil_r; [done|]. intros (_ & _ & ?). congruence.
  - by rewrite decide_True.
Qed.

Lemma require_thumbnails_entries (es : list (Category * Template)) acc :
  foldl (fun errs (e : Category * Template) => require_thumbnail d errs e.2) acc es
  = acc ++ (es.*2 ≫= thumbnail_report d).
Proof.
  revert acc. induction es as [|e es IH]; intros acc; simpl.
  - by rewrite app_nil_r.
  - by rewrite require_thumbnail_report, IH, <- List.app_assoc.
Qed.

Lemma required_thumbnails_errors m :
  (check_required_thumbnails m d).2 = (all_entries m).*2 ≫= thumbnail_report d.
Proof.
  unfold check_required_thumbnails, require_thumbnails_in. simpl.
  by rewrite (foldl_entries (fun _ => require_thumbnail d)),
    require_thumbnails_entries.
Qed.

End RequiredThumbnails.

Lemma elem_of_all_entries (m : Manifest) c t :
  (c, t) ∈ all_entries m ↔ c ∈ m ∧ t ∈ get (templates c) [].
Proof.
  unfold all_entries. rewrite list_elem_of_bind. split.
  - intros (c' & [t' [[= -> ->] Ht]]%list_elem_of_fmap & Hc). done.
  - intros [Hc Ht]. exists c. split; [|done]. apply list_elem_of_fmap. eauto.
Qed.

(** C6: the required-thumbnail check reports a template exactly when it
    has a non-empty name, a non-empty mediaSubtype and no file
    [<name>-1.<mediaSubtype>] in the templates directory; the message
    names that file, and every other template adds nothing.  The error
    list is the concatenation of the templates' reports in manifest
    order. *)
Theorem required_thumbnail_error_iff (m : Manifest) (d : Directory) :
  let errs := (check_required_thumbnails m d).2 in
  errs = (all_entries m).*2 ≫= thumbnail_report d ∧
  (∀ t, lacks_thumbnail d t →
        thumbnail_report d t =
        ["Missing required thumbnail: " +:+
         (template_name t +:+ "-1." +:+ template_subtype t)]) ∧
  (∀ t, template_name t = "" ∨ template_subtype t = "" ∨
        path_exists d (template_name t +:+ "-1." +:+ template_subtype t) = true →
        thumbnail_report d t = []) ∧
  (∀ e, e ∈ errs ↔
        ∃ c t, c ∈ m ∧ t ∈ get (templates c) [] ∧ lacks_thumbnail d t ∧
               e = "Missing required thumbnail: " +:+
                   (template_name t +:+ "-1." +:+ template_subtype t)) ∧
  (check_required_thumbnails m d).1 = bool_decide (errs = []).
Proof.
  intros errs.
  assert (Herrs : errs = (all_entries m).*2 ≫= thumbnail_report d)
    by apply required_thumbnails_errors.
  split_and!; [done| | | |].
  - intros t Ht. unfold thumbnail_report. by rewrite decide_True.
  - intros t Ht. unfold thumbnail_report. rewrite decide_False; [done|].
    unfold lacks_thumbnail, thumbnail_1. intros (? & ? & ?).
    destruct Ht as [?|[?|?]]; congruence.
  - intros e. rewrite Herrs, list_elem_of_bind. split.
    + intros (t & He & [[c t'] [-> Hin]]%list_elem_of_fmap).
      apply elem_of_all_entries in Hin as [Hc Ht].
      unfold thumbnail_report in He. case_decide as Hl; [|by inversion He].
      apply list_elem_of_singleton in He. exists c, t'. done.
    + intros (c & t & Hc & Ht & Hl & ->). exists t. split.
      * unfold thumbnail_report. rewrite decide_True by done.
        by apply list_elem_of_singleton.
      * apply list_elem_of_fmap. exists (c, t). split; [done|].
        by apply elem_of_all_entries.
  - subst errs. unfold check_required_thumbnails. simpl.
    by destruct (foldl _ _ _).
Qed.

Lemma required_thumbnail_error_iff_witness :
  thumbnail_report (flat_directory ∅)
    {| name := Some "flux_basic"; mediaSubtype := Some "webp" |}
  = ["Missing required thumbnail: flux_basic-1.webp"].
Proof.
  refine (proj1 (proj2 (required_thumbnail_error_iff flux_manifest (flat_directory ∅)))
            {| name := Some "flux_basic"; mediaSubtype := Some "webp" |} _).
  split_and!.
  - discriminate.
  - discriminate.
  - reflexivity.
Defined.

(** ** Categories without a [templates] field *)

(** C10: a category object without the [templates] field is read as an
    empty category by the file-consistency, duplicate-name and
    required-thumbnail checks: each returns what it returns on the
    manifest without that category, so the category adds neither an
    error nor a warning, and none of the checks rejects it. *)
Theorem category_without_templates_ignored
    (t : option string) (m1 m2 : Manifest) (d : Directory) :
  let c := {| title := t; templates := None |} in
  check_file_consistency (m1 ++ c :: m2) d = check_file_consistency (m1 ++ m2) d ∧
  check_duplicate_names (m1 ++ c :: m2) = check_duplicate_names (m1 ++ m2) ∧
  check_required_thumbnails (m1 ++ c :: m2) d = check_required_thumbnails (m1 ++ m2) d.
Proof.
  intros c. split_and!.
  - unfold check_file_consistency, file_consistency_scan, collect_references.
    by rewrite !foldl_app.
  - unfold check_duplicate_names. by rewrite !foldl_app.
  - unfold check_required_thumbnails. by rewrite !foldl_app.
Qed.

(** ** The first loop of the file-consistency check *)

Section CollectReferences.

Variable d : Directory.

Lemma probe_thumbnails_closed n ms (indices : list nat) (st : Scan) :
  let names := (fun i => thumbnail_file n i ms) <$> indices in
  foldl (probe_thumbnail d n ms) st indices =
  {| errors := errors st; warnings := warnings st;
     referenced_workflows := referenced_workflows st;
     referenced_thumbnails :=
       list_to_set (filter (fun f => Is_true (path_exists d f)) names)
       ∪ referenced_thumbnails st;
     probed := probed st ++ names |}.
Proof.
  revert st. induction indices as [|i indices IH]; intros st; simpl.
  - destruct st; simpl. f_equal; [by rewrite (left_id_L ∅ (∪))|by rewrite app_nil_r].
  - rewrite IH. unfold probe_thumbnail, probe. simpl.
    rewrite filter_cons.
    destruct (path_exists d (thumbnail_file n i ms)) eqn:He; simpl.
    + f_equal; [|by rewrite <- List.app_assoc].
      by rewrite (assoc_L (∪)), (comm_L (∪) _ {[ _ ]}).
    + f_equal. by rewrite <- List.app_assoc.
Qed.

Lemma collect_template_closed c (st : Scan) t :
  collect_template d c st t =
  {| errors := errors st ++ name_errors (c, t); warnings := warnings st;
     referenced_workflows := list_to_set (workflow_of t) ∪ referenced_workflows st;
     referenced_thumbnails :=
       list_to_set (found_thumbnails d t) ∪ referenced_thumbnails st;
     probed := probed st ++ thumbnail_candidates t |}.
Proof.
  unfold collect_template, name_errors, workflow_of, found_thumbnails,
    thumbnail_candidates, template_name, template_subtype. cbv zeta.
  cbn [fst snd].
  destruct (PyStr.is_empty (get (name t) "")) eqn:Hn; cbn [orb].
  { unfold add_error. cbn [list_to_set filter list_filter foldr].
    by rewrite !(left_id_L ∅ (∪)), app_nil_r. }
  destruct (PyStr.is_empty (get (mediaSubtype t) "")) eqn:Hm.
  { unfold add_workflow. cbn.
    by rewrite !app_nil_r, !(left_id_L ∅ (∪)), (right_id_L ∅ (∪)). }
  rewrite probe_thumbnails_closed. cbn -[seq].
  by rewrite app_nil_r, (right_id_L ∅ (∪)).
Qed.

Lemma collect_references_closed m (st : Scan) :
  collect_references d m st =
  {| errors := errors st ++ (all_entries m ≫= name_errors);
     warnings := warnings st;
     referenced_workflows :=
       list_to_set ((all_entries m).*2 ≫= workflow_of) ∪ referenced_workflows st;
     referenced_thumbnails :=
       list_to_set ((all_entries m).*2 ≫= found_thumbnails d)
       ∪ referenced_thumbnails st;
     probed := probed st ++ ((all_entries m).*2 ≫= thumbnail_candidates) |}.
Proof.
  unfold collect_references, collect_category.
  rewrite (foldl_entries (collect_template d)).
  generalize (all_entries m) as es. intros es. revert st.
  induction es as [|[c t] es IH]; intros st.
  - destruct st; cbn. by rewrite !app_nil_r, !(left_id_L ∅ (∪)).
  - cbn [foldl fst snd]. rewrite IH, collect_template_closed.
    rewrite fmap_cons, !bind_cons, !list_to_set_app_L. cbn [fst snd errors warnings
      referenced_workflows referenced_thumbnails probed].
    f_equal; [by rewrite <- List.app_assoc| | |by rewrite <- List.app_assoc].
    + rewrite (assoc_L (∪)). f_equal. apply (comm_L (∪)).
    + rewrite (assoc_L (∪)). f_equal. apply (comm_L (∪)).
Qed.

End CollectReferences.

(** ** The later loops of the file-consistency check *)

Section LaterLoops.

Variable d : Directory.

Lemma existence_loop_closed (message : string → string) (paths : list string)
    (st : Scan) :
  foldl (fun st p => let '(found, st) := probe d p st in
                     if found then st else add_error (message p) st) st paths =
  {| errors := errors st ++ (message <$> missing d paths);
     warnings := warnings st;
     referenced_workflows := referenced_workflows st;
     referenced_thumbnails := referenced_thumbnails st;
     probed := probed st ++ paths |}.
Proof.
  revert st. induction paths as [|p paths IH]; intros st.
  - destruct st; cbn. by rewrite !app_nil_r.
  - cbn [foldl]. rewrite IH. unfold probe, missing. rewrite filter_cons.
    destruct (path_exists d p) eqn:He; cbn.
    + rewrite decide_False by done. by rewrite <- List.app_assoc.
    + rewrite decide_True by done. cbn. by rewrite <- !List.app_assoc.
Qed.

Lemma check_workflows_exist_closed (st : Scan) :
  check_workflows_exist d st =
  {| errors := errors st ++
               (workflow_not_found_error <$>
                missing d (elements (referenced_workflows st)));
     warnings := warnings st;
     referenced_workflows := referenced_workflows st;
     referenced_thumbnails := referenced_thumbnails st;
     probed := probed st ++ elements (referenced_workflows st) |}.
Proof. apply (existence_loop_closed workflow_not_found_error). Qed.

Lemma check_thumbnails_exist_closed (st : Scan) :
  check_thumbnails_exist d st =
  {| errors := errors st ++
               (thumbnail_not_found_error <$>
                missing d (elements (referenced_thumbnails st)));
     warnings := warnings st;
     referenced_workflows := referenced_workflows st;
     referenced_thumbnails := referenced_thumbnails st;
     probed := probed st ++ elements (referenced_thumbnails st) |}.
Proof. apply (existence_loop_closed thumbnail_not_found_error). Qed.

Lemma add_warnings_closed (message : string → string) (orphans : list string)
    (st : Scan) :
  foldl (fun st orphan => add_warning (message orphan) st) st orphans =
  {| errors := errors st; warnings := warnings st ++ (message <$> orphans);
     referenced_workflows := referenced_workflows st;
     referenced_thumbnails := referenced_thumbnails st;
     probed := probed st |}.
Proof.
  revert st. induction orphans as [|o orphans IH]; intros st.
  - destruct st; cbn. by rewrite app_nil_r.
  - cbn [foldl]. rewrite IH. cbn. by rewrite <- List.app_assoc.
Qed.

Lemma orphan_loop_closed (workflows : gset string) (fs acc : list string) :
  foldl (fun orphans media_file =>
           if is_referenced workflows media_file then orphans
           else orphans ++ [media_file]) acc fs =
  acc ++ filter (fun f => is_referenced workflows f = false) fs.
Proof.
  revert acc. induction fs as [|f fs IH]; intros acc.
  - cbn. by rewrite app_nil_r.
  - cbn [foldl]. rewrite IH, filter_cons.
    destruct (is_referenced workflows f) eqn:Hr.
    + by rewrite decide_False.
    + rewrite decide_True by done. by rewrite <- List.app_assoc.
Qed.

Lemma potential_orphans_filter (workflows : gset string) :
  potential_orphans d workflows =
  filter (fun f => is_referenced workflows f = false) (elements (media_files d)).
Proof. apply orphan_loop_closed. Qed.

Lemma report_orphans_closed (st : Scan) :
  report_orphans d st =
  {| errors := errors st;
     warnings :=
       warnings st ++
       (orphaned_workflow_warning <$>
        elements (workflow_files d ∖ referenced_workflows st)) ++
       (orphaned_media_warning <$> potential_orphans d (referenced_workflows st));
     referenced_workflows := referenced_workflows st;
     referenced_thumbnails := referenced_thumbnails st;
     probed := probed st |}.
Proof.
  unfold report_orphans. cbv zeta. rewrite !add_warnings_closed. cbn.
  by rewrite <- List.app_assoc.
Qed.

(** Every thumbnail the first loop references exists. *)
Lemma thumbnails_of_exist m f : f ∈ thumbnails_of d m → path_exists d f = true.
Proof.
  unfold thumbnails_of. rewrite elem_of_list_to_set, list_elem_of_bind.
  intros (t & Hf & _). unfold found_thumbnails in Hf.
  apply list_elem_of_filter in Hf as [Hf _]. by apply Is_true_true.
Qed.

Lemma missing_thumbnails_of m : missing d (elements (thumbnails_of d m)) = [].
Proof.
  unfold missing.
  destruct (filter _ _) as [|f fs] eqn:Hfs; [done|].
  assert (Hf : f ∈ f :: fs) by left.
  rewrite <- Hfs in Hf. apply list_elem_of_filter in Hf as [Hno Hin].
  apply elem_of_elements, (thumbnails_of_exist m) in Hin. congruence.
Qed.

(** The state of [check_file_consistency] at its [return]. *)
Lemma file_consistency_scan_closed m :
  file_consistency_scan m d =
  {| errors := (all_entries m ≫= name_errors) ++
               (workflow_not_found_error <$> missing d (elements (workflows_of m)));
     warnings :=
       (orphaned_workflow_warning <$> elements (workflow_files d ∖ workflows_of m)) ++
       (orphaned_media_warning <$> potential_orphans d (workflows_of m));
     referenced_workflows := workflows_of m;
     referenced_thumbnails := thumbnails_of d m;
     probed := ((all_entries m).*2 ≫= thumbnail_candidates) ++
               elements (workflows_of m) ++ elements (thumbnails_of d m) |}.
Proof.
  unfold file_consistency_scan.
  rewrite collect_references_closed, check_workflows_exist_closed,
    check_thumbnails_exist_closed, report_orphans_closed.
  cbn [errors warnings referenced_workflows referenced_thumbnails probed scan_start].
  rewrite !(right_id_L ∅ (∪)). fold (workflows_of m) (thumbnails_of d m).
  rewrite missing_thumbnails_of. cbn. by rewrite app_nil_r, <- List.app_assoc.
Qed.

End LaterLoops.

(** ** The defensive thumbnail loop *)

Lemma name_error_not_thumbnail_error e f :
  thumbnail_not_found_error f ∉ name_errors e.
Proof.
  unfold name_errors. destruct (PyStr.is_empty _); [|by apply not_elem_of_nil].
  intros H%list_elem_of_singleton. discriminate.
Qed.

(** C7: with one directory state for the whole run, every member of the
    referenced-thumbnails set exists when the defensive loop re-checks it,
    so the loop leaves the error list as it found it and the function
    returns no "Referenced thumbnail file not found" error. *)
Theorem thumbnail_not_found_unreachable (m : Manifest) (d : Directory) :
  let st := check_workflows_exist d (collect_references d m scan_start) in
  (∀ f, f ∈ referenced_thumbnails st → path_exists d f = true) ∧
  errors (check_thumbnails_exist d st) = errors st ∧
  (∀ f, thumbnail_not_found_error f ∉ (check_file_consistency m d).1.2).
Proof.
  intros st. subst st.
  rewrite check_thumbnails_exist_closed, check_workflows_exist_closed,
    collect_references_closed.
  cbn [errors warnings referenced_workflows referenced_thumbnails probed scan_start].
  rewrite !(right_id_L ∅ (∪)). fold (workflows_of m) (thumbnails_of d m).
  split_and!.
  - apply thumbnails_of_exist.
  - by rewrite missing_thumbnails_of, app_nil_r.
  - intros f. unfold check_file_consistency. cbn [fst snd].
    rewrite file_consistency_scan_closed. cbn [errors].
    rewrite elem_of_app, list_elem_of_bind, list_elem_of_fmap.
    intros [(e & He & _)|(w & Hw & _)].
    + by apply name_error_not_thumbnail_error in He.
    + discriminate.
Qed.

Lemma thumbnail_not_found_unreachable_witness :
  path_exists flux_directory "flux_basic-1.webp" = true.
Proof.
  refine (proj1 (thumbnail_not_found_unreachable flux_manifest flux_directory)
            "flux_basic-1.webp" _).
  apply (bool_decide_unpack _). vm_compute. exact I.
Defined.

(** ** Templates without a name *)





Lemma name_errors_nameless m :
  all_entries m ≫= name_errors = missing_name_error <$> nameless_categories m.
Proof.
  unfold nameless_categories. induction (all_entries m) as [|[c t] es IH]; [done|].
  rewrite bind_cons, filter_cons, IH. unfold name_errors at 1. cbn [fst snd].
  destruct (PyStr.is_empty (template_name t)) eqn:Ht.
  - apply is_empty_true in Ht. by rewrite decide_True.
  - apply is_empty_false in Ht. by rewrite decide_False.
Qed.









(** ** Matching a media file against a template name *)

Section Matching.

Lemma matches_template_iff tn f :
  matches_template tn f = true ↔
  ∃ rest, f = tn +:+ "-" +:+ rest ∧ PyStr.isdigit (PyStr.before_dot rest) = true.
Proof.
  unfold matches_template, PyStr.startswith. rewrite andb_true_iff. split.
  - intros [[rest Hf]%prefix_inv Hd]. rewrite append_assoc in Hf. exists rest.
    split; [done|]. subst f. rewrite <- append_assoc in Hd.
    replace (String.length tn + 1) with (String.length (tn +:+ "-")) in Hd
      by (rewrite length_append; done).
    by rewrite slice_from_append in Hd.
  - intros (rest & -> & Hd). rewrite <- append_assoc. split.
    + apply prefix_append.
    + replace (String.length tn + 1) with (String.length (tn +:+ "-"))
        by (rewrite length_append; done).
      by rewrite slice_from_append.
Qed.

(** An occurrence of [.json] cannot start inside [s] and end inside a
    [.json] that follows it. *)
Lemma prefix_json_append c s :
  String.prefix ".json" (String c s +:+ ".json") = true →
  String.prefix ".json" (String c s) = true.
Proof.
  destruct s as [|c2 [|c3 [|c4 [|c5 s]]]]; cbn -[ascii_dec];
    repeat (destruct (ascii_dec _ _); try done).
  by destruct s.
Qed.

Lemma remove_all_json_suffix n :
  contains ".json" n = false → PyStr.remove_all ".json" (n +:+ ".json") = n.
Proof.
  unfold PyStr.remove_all. induction n as [|c n IH]; [done|].
  intros [Hp Hn]%orb_false_iff.
  change (String c n +:+ ".json") with (String c (n +:+ ".json")).
  cbn [PyStr.remove_all_from].
  destruct (String.prefix ".json" (String c (n +:+ ".json"))) eqn:Hq.
  - apply (prefix_json_append c n) in Hq. congruence.
  - by rewrite IH.
Qed.

Lemma is_referenced_iff (workflows : gset string) f :
  is_referenced workflows f = true ↔
  ∃ w, w ∈ workflows ∧ matches_template (PyStr.remove_all ".json" w) f = true.
Proof.
  unfold is_referenced, template_names. rewrite existsb_exists. split.
  - intros (tn & Hin & Hm). apply list_elem_of_In, list_elem_of_fmap in Hin
      as (w & -> & Hw%elem_of_elements). eauto.
  - intros (w & Hw & Hm). eexists. split; [|done].
    apply list_elem_of_In, list_elem_of_fmap. exists w.
    by rewrite elem_of_elements.
Qed.

Lemma elem_of_workflows_of m w :
  w ∈ workflows_of m ↔
  ∃ c t, c ∈ m ∧ t ∈ get (templates c) [] ∧ template_name t ≠ "" ∧
         w = workflow_file (template_name t).
Proof.
  unfold workflows_of. rewrite elem_of_list_to_set, list_elem_of_bind. split.
  - intros (t & Hw & [[c t'] [-> Hin]]%list_elem_of_fmap).
    apply elem_of_all_entries in Hin as [Hc Ht]. cbn [snd] in Hw.
    unfold workflow_of in Hw. destruct (PyStr.is_empty _) eqn:He;
      [by apply not_elem_of_nil in Hw|].
    apply list_elem_of_singleton in Hw. apply is_empty_false in He. eauto 8.
  - intros (c & t & Hc & Ht & Hn & ->). exists t. split.
    + unfold workflow_of. apply is_empty_false in Hn. rewrite Hn.
      by apply list_elem_of_singleton.
    + apply list_elem_of_fmap. exists (c, t). by rewrite elem_of_all_entries.
Qed.

End Matching.

(** ** Orphan warnings *)

Section Orphans.

Variables (m : Manifest) (d : Directory).

Lemma file_consistency_warnings :
  (check_file_consistency m d).2 =
  (orphaned_workflow_warning <$> elements (workflow_files d ∖ workflows_of m)) ++
  (orphaned_media_warning <$> potential_orphans d (workflows_of m)).
Proof.
  unfold check_file_consistency. cbn [snd]. by rewrite file_consistency_scan_closed.
Qed.

Lemma file_consistency_errors :
  (check_file_consistency m d).1.2 =
  (all_entries m ≫= name_errors) ++
  (workflow_not_found_error <$> missing d (elements (workflows_of m))).
Proof.
  unfold check_file_consistency. cbn [fst snd].
  by rewrite file_consistency_scan_closed.
Qed.

Lemma elem_of_potential_orphans f :
  f ∈ potential_orphans d (workflows_of m) ↔
  f ∈ media_files d ∧ is_referenced (workflows_of m) f = false.
Proof.
  rewrite potential_orphans_filter, list_elem_of_filter, elem_of_elements. tauto.
Qed.

Lemma media_warning_iff f :
  orphaned_media_warning f ∈ (check_file_consistency m d).2 ↔
  f ∈ media_files d ∧ is_referenced (workflows_of m) f = false.
Proof.
  rewrite file_consistency_warnings, elem_of_app, !list_elem_of_fmap,
    <- elem_of_potential_orphans. split.
  - intros [(w & Hw & _)|(f' & Hf & Hin)]; [discriminate|].
    by apply (inj (String.app _)) in Hf as ->.
  - intros Hf. right. eauto.
Qed.

Lemma workflow_warning_iff f :
  orphaned_workflow_warning f ∈ (check_file_consistency m d).2 ↔
  f ∈ workflow_files d ∧ f ∉ workflows_of m.
Proof.
  rewrite file_consistency_warnings, elem_of_app, !list_elem_of_fmap. split.
  - intros [(w & Hw & Hin)|(f' & Hf & _)]; [|discriminate].
    apply (inj (String.app _)) in Hw as ->.
    by apply elem_of_elements, elem_of_difference in Hin.
  - intros [Hf Hn]. left. exists f. split; [done|].
    by apply elem_of_elements, elem_of_difference.
Qed.


Lemma file_consistency_warnings_NoDup : NoDup (check_file_consistency m d).2.
Proof.
  rewrite file_consistency_warnings. apply NoDup_app. split_and!.
  - apply (NoDup_fmap_2 (String.app _)), NoDup_elements.
  - intros w (f & -> & _)%list_elem_of_fmap (f' & Hf & _)%list_elem_of_fmap.
    discriminate.
  - apply (NoDup_fmap_2 (String.app _)). rewrite potential_orphans_filter.
    apply NoDup_filter, NoDup_elements.
Qed.

Lemma is_referenced_exempt f : is_referenced (workflows_of m) f = true ↔ exempt m f.
Proof.
  rewrite is_referenced_iff. unfold exempt, referenced_name. split.
  - intros (w & (c & t & Hc & Ht & Hn & ->)%elem_of_workflows_of & Hm). eauto 8.
  - intros (c & t & Hc & Ht & Hn & Hm). eexists. split; [|done].
    apply elem_of_workflows_of. eauto 8.
Qed.

End Orphans.

(** ** Code points and their bytes *)

Section Utf8.

Local Open Scope N_scope.

Lemma continuation_Some a c :
  PyStr.continuation a = Some c ↔ 128 ≤ N_of_ascii a < 192 ∧ c = N_of_ascii a - 128.
Proof.
  unfold PyStr.continuation. cbv zeta.
  destruct (128 <=? N_of_ascii a) eqn:H1; destruct (N_of_ascii a <? 192) eqn:H2;
    cbn [andb];
    try apply N.leb_le in H1; try apply N.leb_gt in H1;
    try apply N.ltb_lt in H2; try apply N.ltb_ge in H2;
    split; try (intros [= <-]); try (intros [? ->]); try done; try lia.
Qed.

Lemma scalar_Some least p q :
  PyStr.scalar least p = Some q ↔
  q = p ∧ least ≤ p ≤ 1114111 ∧ ¬ (55296 ≤ p ≤ 57343).
Proof.
  unfold PyStr.scalar.
  destruct (least <=? p) eqn:H1; destruct (p <=? 1114111) eqn:H2;
    destruct (55296 <=? p) eqn:H3; destruct (p <=? 57343) eqn:H4;
    cbn [andb negb];
    try apply N.leb_le in H1; try apply N.leb_gt in H1;
    try apply N.leb_le in H2; try apply N.leb_gt in H2;
    try apply N.leb_le in H3; try apply N.leb_gt in H3;
    try apply N.leb_le in H4; try apply N.leb_gt in H4;
    split; try (intros [= <-]); try (intros (-> & ? & ?)); try done;
    try (split_and!; [done|lia|lia]); try lia.
Qed.

Lemma ascii_of_N_of_ascii a n : n = N_of_ascii a → ascii_of_N n = a.
Proof. intros ->. apply ascii_N_embedding. Qed.

Lemma N_of_ascii_of_N n : n < 256 → N_of_ascii (ascii_of_N n) = n.
Proof. apply N_ascii_embedding. Qed.

Lemma N_of_ascii_lt a : N_of_ascii a < 256.
Proof. apply N_ascii_bounded. Qed.

End Utf8.

Ltac dlia := zify; Z.to_euclidean_division_equations; lia.

Section Utf8Points.

Local Open Scope N_scope.

Lemma continuation_byte r : r < 64 → PyStr.continuation (ascii_of_N (128 + r)) = Some r.
Proof.
  intros Hr. apply continuation_Some. rewrite N_of_ascii_of_N by lia. lia.
Qed.

Lemma scalar_id least p :
  least ≤ p ≤ 1114111 → ¬ (55296 ≤ p ≤ 57343) → PyStr.scalar least p = Some p.
Proof. intros. by apply scalar_Some. Qed.

Lemma two_bytes_utf8 a0 a1 p :
  N_of_ascii a0 < 224 → PyStr.two_bytes (N_of_ascii a0) a1 = Some p →
  utf8_point p = String a0 (String a1 EmptyString).
Proof.
  intros Hb. unfold PyStr.two_bytes.
  destruct (192 <=? N_of_ascii a0) eqn:H0; [apply N.leb_le in H0|done].
  destruct (PyStr.continuation a1) as [c1|] eqn:H1; [|done]. cbn [mbind option_bind].
  apply continuation_Some in H1 as [H1 ->].
  intros (-> & Hp & _)%scalar_Some. unfold utf8_point.
  rewrite (proj2 (N.ltb_ge _ _)), (proj2 (N.ltb_lt _ _)) by lia.
  f_equal; [|f_equal]; apply ascii_of_N_of_ascii; dlia.
Qed.

Lemma three_bytes_utf8 a0 a1 a2 p :
  224 ≤ N_of_ascii a0 < 240 → PyStr.three_bytes (N_of_ascii a0) a1 a2 = Some p →
  utf8_point p = String a0 (String a1 (String a2 EmptyString)).
Proof.
  intros Hb. unfold PyStr.three_bytes.
  destruct (PyStr.continuation a1) as [c1|] eqn:H1; [|done]. cbn [mbind option_bind].
  destruct (PyStr.continuation a2) as [c2|] eqn:H2; [|done]. cbn [mbind option_bind].
  apply continuation_Some in H1 as [H1 ->]. apply continuation_Some in H2 as [H2 ->].
  intros (-> & Hp & _)%scalar_Some. unfold utf8_point.
  rewrite !(proj2 (N.ltb_ge _ _)), (proj2 (N.ltb_lt _ _)) by lia.
  f_equal; [|f_equal; [|f_equal]]; apply ascii_of_N_of_ascii; dlia.
Qed.

Lemma four_bytes_utf8 a0 a1 a2 a3 p :
  240 ≤ N_of_ascii a0 → PyStr.four_bytes (N_of_ascii a0) a1 a2 a3 = Some p →
  utf8_point p = String a0 (String a1 (String a2 (String a3 EmptyString))).
Proof.
  intros Hb. unfold PyStr.four_bytes.
  destruct (PyStr.continuation a1) as [c1|] eqn:H1; [|done]. cbn [mbind option_bind].
  destruct (PyStr.continuation a2) as [c2|] eqn:H2; [|done]. cbn [mbind option_bind].
  destruct (PyStr.continuation a3) as [c3|] eqn:H3; [|done]. cbn [mbind option_bind].
  apply continuation_Some in H1 as [H1 ->]. apply continuation_Some in H2 as [H2 ->].
  apply continuation_Some in H3 as [H3 ->].
  intros (-> & Hp & _)%scalar_Some. unfold utf8_point.
  rewrite !(proj2 (N.ltb_ge _ _)) by lia.
  f_equal; [|f_equal; [|f_equal; [|f_equal]]]; apply ascii_of_N_of_ascii; dlia.
Qed.

Lemma fmap_cons_Some (p : N) (o : option (list N)) ps :
  cons p <$> o = Some ps → ∃ ps', o = Some ps' ∧ ps = p :: ps'.
Proof. destruct o as [ps'|]; [|done]. intros [= <-]. eauto. Qed.

(** One step of the decoder. *)
Lemma code_points_step a0 s1 ps :
  PyStr.code_points (String a0 s1) = Some ps →
  ∃ p ps' s', ps = p :: ps' ∧ String a0 s1 = utf8_point p +:+ s' ∧
              PyStr.code_points s' = Some ps' ∧
              (String.length s' < String.length (String a0 s1))%nat.
Proof.
  cbn [PyStr.code_points]. cbv zeta.
  destruct (N_of_ascii a0 <? 128) eqn:Hb.
  { intros (ps' & H1 & ->)%fmap_cons_Some. exists (N_of_ascii a0), ps', s1.
    split_and!; [done| |done|cbn; lia].
    unfold utf8_point. rewrite Hb. by rewrite ascii_N_embedding. }
  apply N.ltb_ge in Hb. destruct s1 as [|a1 s2]; [done|].
  destruct (N_of_ascii a0 <? 224) eqn:Hb2.
  { apply N.ltb_lt in Hb2.
    destruct (PyStr.two_bytes _ a1) as [p|] eqn:Hp; [|done]. cbn [mbind option_bind].
    intros (ps' & H1 & ->)%fmap_cons_Some. exists p, ps', s2.
    split_and!; [done| |done|cbn; lia].
    by rewrite (two_bytes_utf8 a0 a1 p). }
  apply N.ltb_ge in Hb2. destruct s2 as [|a2 s3]; [done|].
  destruct (N_of_ascii a0 <? 240) eqn:Hb3.
  { apply N.ltb_lt in Hb3.
    destruct (PyStr.three_bytes _ a1 a2) as [p|] eqn:Hp; [|done].
    cbn [mbind option_bind].
    intros (ps' & H1 & ->)%fmap_cons_Some. exists p, ps', s3.
    split_and!; [done| |done|cbn; lia].
    by rewrite (three_bytes_utf8 a0 a1 a2 p). }
  apply N.ltb_ge in Hb3. destruct s3 as [|a3 s4]; [done|].
  destruct (PyStr.four_bytes _ a1 a2 a3) as [p|] eqn:Hp; [|done].
  cbn [mbind option_bind].
  intros (ps' & H1 & ->)%fmap_cons_Some. exists p, ps', s4.
  split_and!; [done| |done|cbn; lia].
  by rewrite (four_bytes_utf8 a0 a1 a2 a3 p).
Qed.

(** A string that decodes is the encoding of its code points. *)
Lemma code_points_utf8_inv s ps : PyStr.code_points s = Some ps → s = utf8 ps.
Proof.
  remember (String.length s) as n eqn:Hn. revert s ps Hn.
  induction (lt_wf n) as [n _ IH]. intros [|a0 s1] ps Hn.
  { by intros [= <-]. }
  intros (p & ps' & s' & -> & Hs & Hc & Hlt)%code_points_step.
  rewrite Hs. cbn [utf8 foldr]. f_equal. subst n. by apply (IH _ Hlt).
Qed.

(** The encoding of a scalar value decodes to it. *)
Lemma code_points_utf8_point p s :
  p ≤ 1114111 → ¬ (55296 ≤ p ≤ 57343) →
  PyStr.code_points (utf8_point p +:+ s) = cons p <$> PyStr.code_points s.
Proof.
  intros Hmax Hsur. unfold utf8_point.
  destruct (p <? 128) eqn:H1.
  { apply N.ltb_lt in H1. cbn [String.append PyStr.code_points]. cbv zeta.
    rewrite N_of_ascii_of_N by dlia. by rewrite (proj2 (N.ltb_lt _ _)) by dlia. }
  apply N.ltb_ge in H1. destruct (p <? 2048) eqn:H2.
  { apply N.ltb_lt in H2. cbn [String.append PyStr.code_points]. cbv zeta.
    rewrite N_of_ascii_of_N by dlia.
    rewrite (proj2 (N.ltb_ge _ _)), (proj2 (N.ltb_lt _ _)) by dlia.
    unfold PyStr.two_bytes. rewrite (proj2 (N.leb_le _ _)) by dlia.
    rewrite continuation_byte by dlia. cbn [mbind option_bind].
    replace ((192 + p / 64 - 192) * 64 + p mod 64) with p by dlia.
    by rewrite scalar_id by dlia. }
  apply N.ltb_ge in H2. destruct (p <? 65536) eqn:H3.
  { apply N.ltb_lt in H3. cbn [String.append PyStr.code_points]. cbv zeta.
    rewrite N_of_ascii_of_N by dlia.
    rewrite !(proj2 (N.ltb_ge _ _)), (proj2 (N.ltb_lt _ _)) by dlia.
    unfold PyStr.three_bytes. rewrite !continuation_byte by dlia.
    cbn [mbind option_bind].
    replace ((224 + p / 4096 - 224) * 4096 + (p / 64) mod 64 * 64 + p mod 64)
      with p by dlia.
    by rewrite scalar_id by dlia. }
  apply N.ltb_ge in H3. cbn [String.append PyStr.code_points]. cbv zeta.
  rewrite N_of_ascii_of_N by dlia.
  rewrite !(proj2 (N.ltb_ge _ _)) by dlia.
  unfold PyStr.four_bytes. rewrite !continuation_byte by dlia.
  cbn [mbind option_bind].
  replace ((240 + p / 262144 - 240) * 262144 + (p / 4096) mod 64 * 4096
           + (p / 64) mod 64 * 64 + p mod 64) with p by dlia.
  by rewrite scalar_id by dlia.
Qed.

End Utf8Points.

Section DigitRuns.

Local Open Scope N_scope.

Lemma digit_range p :
  PyStr.is_digit_code_point p = true ↔
  ∃ r, r ∈ PyStr.digit_ranges ∧ r.1 ≤ p ≤ r.2.
Proof.
  unfold PyStr.is_digit_code_point. rewrite existsb_exists. split.
  - intros (r & Hin%list_elem_of_In & [H1%N.leb_le H2%N.leb_le]%andb_true_iff). eauto.
  - intros (r & Hin%list_elem_of_In & H1 & H2). exists r. split; [done|].
    apply andb_true_iff. split; by apply N.leb_le.
Qed.

Lemma digit_ranges_all (check : N * N → bool) :
  forallb check PyStr.digit_ranges = true →
  ∀ r, r ∈ PyStr.digit_ranges → check r = true.
Proof. intros Hall r Hin%list_elem_of_In. by apply (proj1 (forallb_forall _ _) Hall). Qed.

Lemma digit_scalar p :
  PyStr.is_digit_code_point p = true → p ≤ 1114111 ∧ ¬ (55296 ≤ p ≤ 57343).
Proof.
  intros (r & Hin & Hr)%digit_range.
  apply (digit_ranges_all
           (fun r => (r.2 <=? 1114111) && ((r.2 <? 55296) || (57343 <? r.1)))) in Hin;
    [|by vm_compute].
  apply andb_true_iff in Hin as [Hm%N.leb_le [Hs%N.ltb_lt|Hs%N.ltb_lt]%orb_true_iff]; lia.
Qed.

Lemma digit_ascii p : p < 128 → PyStr.is_digit_code_point p = true ↔ 48 ≤ p ≤ 57.
Proof.
  intros Hp. split.
  - intros (r & Hin & Hr)%digit_range.
    apply (digit_ranges_all
             (fun r => (128 <=? r.1) || ((r.1 =? 48) && (r.2 =? 57)))) in Hin;
      [|by vm_compute].
    apply orb_true_iff in Hin as [Hm%N.leb_le|[H1%N.eqb_eq H2%N.eqb_eq]%andb_true_iff];
      lia.
  - intros Hd. apply digit_range. exists (48, 57). split; [left|done].
Qed.

Lemma code_points_utf8 ds :
  Forall (fun p => PyStr.is_digit_code_point p = true) ds →
  PyStr.code_points (utf8 ds) = Some ds.
Proof.
  induction 1 as [|p ds Hp _ IH]; [done|].
  cbn [utf8 foldr]. fold (utf8 ds).
  destruct (digit_scalar p Hp) as [H1 H2].
  by rewrite code_points_utf8_point, IH.
Qed.

(** [str.isdigit] in words: the string is the text of a non-empty
    sequence of digits. *)
Lemma isdigit_iff s :
  PyStr.isdigit s = true ↔
  ∃ ds, ds ≠ [] ∧ Forall (fun p => PyStr.is_digit_code_point p = true) ds ∧ s = utf8 ds.
Proof.
  unfold PyStr.isdigit. split.
  - destruct (PyStr.code_points s) as [[|p ps]|] eqn:Hc; [done| |done].
    intros Hall. exists (p :: ps). split_and!; [done| |by apply code_points_utf8_inv].
    apply Forall_forall. intros q Hq%list_elem_of_In.
    by apply (proj1 (forallb_forall _ _) Hall).
  - intros (ds & Hne & Hd & ->). rewrite code_points_utf8 by done.
    destruct ds as [|p ps]; [done|].
    apply forallb_forall. intros q Hq%list_elem_of_In.
    by apply (proj1 (Forall_forall _ _) Hd).
Qed.

Lemma ascii_of_N_not_dot n : n < 256 → n ≠ 46 → Ascii.eqb (ascii_of_N n) "."%char = false.
Proof.
  intros Hn Hne. apply Ascii.eqb_neq. intros Heq.
  apply (f_equal N_of_ascii) in Heq. rewrite N_of_ascii_of_N in Heq by done.
  apply Hne. rewrite Heq. reflexivity.
Qed.

Lemma before_dot_utf8_point p s :
  PyStr.is_digit_code_point p = true →
  PyStr.before_dot (utf8_point p +:+ s) = utf8_point p +:+ PyStr.before_dot s.
Proof.
  intros Hp. pose proof (digit_scalar p Hp) as [Hmax _]. unfold utf8_point.
  destruct (p <? 128) eqn:H1.
  { apply N.ltb_lt in H1. apply digit_ascii in Hp; [|done].
    cbn [String.append PyStr.before_dot]. by rewrite ascii_of_N_not_dot by lia. }
  apply N.ltb_ge in H1.
  destruct (p <? 2048) eqn:H2.
  { apply N.ltb_lt in H2. cbn [String.append PyStr.before_dot].
    by rewrite !ascii_of_N_not_dot by dlia. }
  apply N.ltb_ge in H2. destruct (p <? 65536) eqn:H3.
  { apply N.ltb_lt in H3. cbn [String.append PyStr.before_dot].
    by rewrite !ascii_of_N_not_dot by dlia. }
  apply N.ltb_ge in H3. cbn [String.append PyStr.before_dot].
  by rewrite !ascii_of_N_not_dot by dlia.
Qed.

Lemma before_dot_utf8 ds tail :
  Forall (fun p => PyStr.is_digit_code_point p = true) ds →
  tail = EmptyString ∨ (∃ ext, tail = "." +:+ ext) →
  PyStr.before_dot (utf8 ds +:+ tail) = utf8 ds.
Proof.
  intros Hd Htail. induction Hd as [|p ds Hp _ IH].
  - cbn [utf8 foldr String.append]. by destruct Htail as [->|[ext ->]].
  - cbn [utf8 foldr]. fold (utf8 ds).
    by rewrite append_assoc, before_dot_utf8_point, IH.
Qed.

Lemma before_dot_split s :
  ∃ tail, s = PyStr.before_dot s +:+ tail ∧
          (tail = EmptyString ∨ ∃ ext, tail = "." +:+ ext).
Proof.
  induction s as [|a s (tail & IH & Htail)].
  - exists EmptyString. split; [done|by left].
  - cbn [PyStr.before_dot]. destruct (Ascii.eqb a ".") eqn:Ha.
    + apply Ascii.eqb_eq in Ha as ->. exists (String "." s). split; [done|].
      right. by exists s.
    + exists tail. split; [|done]. cbn [String.append]. by rewrite <- IH.
Qed.

(** The test of line 108 on the text after [<name>-]. *)
Lemma digit_run_iff rest :
  PyStr.isdigit (PyStr.before_dot rest) = true ↔
  ∃ ds tail, ds ≠ [] ∧ Forall (fun p => PyStr.is_digit_code_point p = true) ds ∧
             (tail = EmptyString ∨ ∃ ext, tail = "." +:+ ext) ∧
             rest = utf8 ds +:+ tail.
Proof.
  split.
  - intros (ds & Hne & Hd & Hs)%isdigit_iff.
    destruct (before_dot_split rest) as (tail & Hrest & Htail).
    exists ds, tail. split_and!; [done..|]. by rewrite <- Hs.
  - intros (ds & tail & Hne & Hd & Htail & ->).
    rewrite before_dot_utf8 by done. apply isdigit_iff. eauto.
Qed.

End DigitRuns.

(** ** Media files and the orphan warning *)

Lemma elem_of_workflow_files d f :
  f ∈ workflow_files d ↔
  f ∈ file_names d ∧ (f ∉ special_files) ∧ PyStr.endswith f ".json" = true.
Proof.
  unfold workflow_files, all_files.
  rewrite elem_of_filter, elem_of_difference, Is_true_true. tauto.
Qed.

Lemma elem_of_media_files d f :
  f ∈ media_files d ↔
  f ∈ file_names d ∧ (f ∉ special_files) ∧ PyStr.endswith f ".json" = false.
Proof.
  unfold media_files. rewrite elem_of_difference, elem_of_workflow_files.
  unfold all_files. rewrite elem_of_difference.
  destruct (PyStr.endswith f ".json"); split.
  - intros [[? ?] Hn]. destruct Hn. done.
  - intros (_ & _ & ?). done.
  - intros [[? ?] _]. done.
  - intros (? & ? & _). split; [done|]. intros (_ & _ & ?). done.
Qed.

(** C1, as the code has it: the orphaned-media loop never consults the
    referenced-thumbnails set.  In a manifest whose template names do
    not contain [.json], a file gets the media orphan warning, once,
    exactly when it is listed, is not a special file, does not end in
    [.json] and is not [<name>-<digits><tail>] for any named template,
    where [<digits>] is a non-empty run of characters that
    [str.isdigit] accepts (among the ASCII characters these are [0] to
    [9]) and [<tail>] is empty or starts with a dot; what follows the
    dot plays no part.  So with a template named [flux_basic] the files
    [flux_basic-1.png] and [flux_basic-٣.png] get no orphan warning,
    whatever mediaSubtype the template declares. *)
Theorem media_orphan_exemption (m : Manifest) (d : Directory) :
  (∀ c t, c ∈ m → t ∈ get (templates c) [] →
          contains ".json" (template_name t) = false) →
  let warns := (check_file_consistency m d).2 in
  (∀ f, ("Media file not referenced in index.json: " +:+ f) ∈ warns ↔
        f ∈ file_names d ∧ (f ∉ special_files) ∧ PyStr.endswith f ".json" = false ∧
        ¬ ∃ c t digits tail,
            c ∈ m ∧ t ∈ get (templates c) [] ∧ template_name t ≠ "" ∧
            digits ≠ [] ∧
            Forall (fun p => PyStr.is_digit_code_point p = true) digits ∧
            (tail = "" ∨ ∃ ext, tail = "." +:+ ext) ∧
            f = template_name t +:+ "-" +:+ utf8 digits +:+ tail) ∧
  NoDup warns ∧
  (∀ p, (p < 128)%N → PyStr.is_digit_code_point p = true ↔ (48 ≤ p ≤ 57)%N) ∧
  (∀ c t, c ∈ m → t ∈ get (templates c) [] → template_name t = "flux_basic" →
          ("Media file not referenced in index.json: flux_basic-1.png" ∉ warns) ∧
          ("Media file not referenced in index.json: flux_basic-٣.png" ∉ warns)).
Proof.
  intros Hjson warns. subst warns.
  assert (Hiff : ∀ f,
    ("Media file not referenced in index.json: " +:+ f) ∈ (check_file_consistency m d).2 ↔
    f ∈ file_names d ∧ (f ∉ special_files) ∧ PyStr.endswith f ".json" = false ∧
    ¬ ∃ c t digits tail,
        c ∈ m ∧ t ∈ get (templates c) [] ∧ template_name t ≠ "" ∧
        digits ≠ [] ∧
        Forall (fun p => PyStr.is_digit_code_point p = true) digits ∧
        (tail = "" ∨ ∃ ext, tail = "." +:+ ext) ∧
        f = template_name t +:+ "-" +:+ utf8 digits +:+ tail).
  { intros f. fold (orphaned_media_warning f).
    rewrite media_warning_iff, elem_of_media_files.
    assert (Hex : is_referenced (workflows_of m) f = true ↔
      ∃ c t digits tail,
        c ∈ m ∧ t ∈ get (templates c) [] ∧ template_name t ≠ "" ∧
        digits ≠ [] ∧
        Forall (fun p => PyStr.is_digit_code_point p = true) digits ∧
        (tail = "" ∨ ∃ ext, tail = "." +:+ ext) ∧
        f = template_name t +:+ "-" +:+ utf8 digits +:+ tail).
    { rewrite is_referenced_exempt. unfold exempt. split.
      - intros (c & t & Hc & Ht & Hn & Hm). exists c, t.
        unfold referenced_name, workflow_file in Hm.
        rewrite remove_all_json_suffix in Hm by eauto.
        apply matches_template_iff in Hm as (rest & -> & Hd).
        apply digit_run_iff in Hd as (ds & tail & Hne & Hd & Htail & ->).
        exists ds, tail. done.
      - intros (c & t & ds & tail & Hc & Ht & Hn & Hne & Hd & Htail & ->).
        exists c, t. split_and!; [done..|].
        unfold referenced_name, workflow_file.
        rewrite remove_all_json_suffix by eauto.
        apply matches_template_iff. eexists. split; [done|].
        apply digit_run_iff. exists ds, tail. done. }
    rewrite <- Hex. destruct (is_referenced _ f); intuition congruence. }
  split_and!; [done| | |].
  - apply file_consistency_warnings_NoDup.
  - apply digit_ascii.
  - intros c t Hc Ht Hn. split.
    + intros Hin. apply (proj1 (Hiff "flux_basic-1.png")) in Hin as (_ & _ & _ & []).
      exists c, t, [49%N], ".png". rewrite Hn.
      split_and!; [done..| |by right; eexists|done].
      repeat constructor.
    + intros Hin. apply (proj1 (Hiff "flux_basic-٣.png")) in Hin as (_ & _ & _ & []).
      exists c, t, [1635%N], ".png". rewrite Hn.
      split_and!; [done..| |by right; eexists|done].
      repeat constructor.
Qed.

Lemma media_orphan_exemption_witness :
  "Media file not referenced in index.json: flux_basic-1.png"
  ∉ (check_file_consistency flux_manifest flux_directory).2.
Proof.
  refine (proj1 (proj2 (proj2 (proj2
    (media_orphan_exemption flux_manifest flux_directory _)))
    (Build_Category (Some "Basics")
       (Some [Build_Template (Some "flux_basic") (Some "webp")]))
    (Build_Template (Some "flux_basic") (Some "webp")) _ _ _)).
  - intros c t ->%list_elem_of_singleton ->%list_elem_of_singleton. reflexivity.
  - left.
  - left.
  - reflexivity.
Defined.

(** The scenario of C1 on the code: [flux_basic] declares [webp], the
    directory holds the media file [flux_basic-1.png], and the check emits
    no warning at all. *)
Lemma flux_png_not_orphaned :
  "flux_basic-1.png" ∈ media_files flux_directory ∧
  (check_file_consistency flux_manifest flux_directory).2 = [] ∧
  ¬ (orphaned_media_warning "flux_basic-1.png"
     ∈ (check_file_consistency flux_manifest flux_directory).2).
Proof.
  assert (Hw : (check_file_consistency flux_manifest flux_directory).2 = [])
    by (vm_compute; reflexivity).
  split_and!; [|done|].
  - apply (bool_decide_unpack _). by vm_compute.
  - rewrite Hw. apply not_elem_of_nil.
Qed.

(** ** Numbered thumbnails *)

Section NumberedThumbnails.

Variables (m : Manifest) (d : Directory).

Lemma elem_of_thumbnail_candidates t f :
  f ∈ thumbnail_candidates t ↔
  template_name t ≠ "" ∧ template_subtype t ≠ "" ∧
  ∃ i, 1 ≤ i ≤ 9 ∧ f = thumbnail_file (template_name t) i (template_subtype t).
Proof.
  unfold thumbnail_candidates.
  destruct (PyStr.is_empty (template_name t)) eqn:Hn; cbn [orb].
  { apply is_empty_true in Hn. split; [by intros ?%not_elem_of_nil|]. tauto. }
  destruct (PyStr.is_empty (template_subtype t)) eqn:Hs.
  { apply is_empty_true in Hs. split; [by intros ?%not_elem_of_nil|]. tauto. }
  apply is_empty_false in Hn, Hs. rewrite list_elem_of_fmap. split.
  - intros (i & -> & Hi%elem_of_seq). split_and!; [done..|]. exists i. split; [lia|done].
  - intros (_ & _ & i & Hi & ->). exists i. split; [done|]. apply elem_of_seq. lia.
Qed.

Lemma elem_of_thumbnails_of f :
  f ∈ thumbnails_of d m ↔
  ∃ c t i, c ∈ m ∧ t ∈ get (templates c) [] ∧
           template_name t ≠ "" ∧ template_subtype t ≠ "" ∧ 1 ≤ i ≤ 9 ∧
           f = thumbnail_file (template_name t) i (template_subtype t) ∧
           path_exists d f = true.
Proof.
  unfold thumbnails_of. rewrite elem_of_list_to_set, list_elem_of_bind. split.
  - intros (t & Hf & [[c t'] [-> Hin]]%list_elem_of_fmap).
    apply elem_of_all_entries in Hin as [Hc Ht]. cbn [snd] in Hf.
    apply list_elem_of_filter in Hf as [He Hf].
    apply elem_of_thumbnail_candidates in Hf as (Hn & Hs & i & Hi & ->).
    exists c, t', i. split_and!; try done; try lia. by apply Is_true_true.
  - intros (c & t & i & Hc & Ht & Hn & Hs & Hi & -> & He). exists t. split.
    + apply list_elem_of_filter. split; [by apply Is_true_true|].
      apply elem_of_thumbnail_candidates. eauto 8.
    + apply list_elem_of_fmap. exists (c, t). by rewrite elem_of_all_entries.
Qed.


Lemma tenth_thumbnail_text t :
  tenth_thumbnail t = template_name t +:+ "-" +:+ "10." +:+ template_subtype t.
Proof. reflexivity. Qed.


End NumberedThumbnails.

(** ** The duplicate-name check *)

Section DuplicateNames.

Implicit Types (seen : gmap string string) (es : list (string * string)).

Lemma note_entries (entries : list (Category * Template)) errs seen :
  let es := (fun e : Category * Template =>
               (get (title e.1) "Unknown", template_name e.2)) <$> entries in
  foldl (fun st (e : Category * Template) =>
           note_template (get (title e.1) "Unknown") st e.2) (errs, seen) entries
  = (errs ++ duplicates_from seen es, seen_after seen es).
Proof.
  cbv zeta. revert errs seen.
  induction entries as [|[c t] entries IH]; intros errs seen.
  - cbn. by rewrite app_nil_r.
  - cbn [foldl fmap list_fmap fst snd duplicates_from seen_after].
    unfold note_template at 2. fold (template_name t).
    destruct (seen !! template_name t) as [first|] eqn:Hs.
    + rewrite IH. by rewrite <- List.app_assoc.
    + by rewrite IH.
Qed.

Lemma check_duplicate_names_closed m :
  check_duplicate_names m =
  (bool_decide (duplicates_from ∅ (titled_names m) = []),
   duplicates_from ∅ (titled_names m)).
Proof.
  unfold check_duplicate_names, note_category, titled_names.
  rewrite (foldl_entries (fun c => note_template (get (title c) "Unknown"))).
  rewrite note_entries. cbn [app].
  by destruct (duplicates_from _ _).
Qed.

Lemma duplicates_from_app seen es1 es2 :
  duplicates_from seen (es1 ++ es2) =
  duplicates_from seen es1 ++ duplicates_from (seen_after seen es1) es2.
Proof.
  revert seen. induction es1 as [|[a n] es1 IH]; intros seen; [done|].
  cbn [app duplicates_from seen_after].
  destruct (seen !! n); [|done]. by rewrite IH.
Qed.

Lemma seen_after_lookup_other seen es k :
  k ∉ es.*2 → seen_after seen es !! k = seen !! k.
Proof.
  revert seen. induction es as [|[a n] es IH]; intros seen Hk; [done|].
  rewrite fmap_cons in Hk. apply not_elem_of_cons in Hk as [Hn Hk].
  cbn [seen_after]. destruct (seen !! n); [by apply IH|].
  rewrite IH by done. by apply lookup_insert_ne.
Qed.

(** A name, once recorded, keeps the title recorded with it. *)
Lemma seen_after_lookup_Some seen es k a :
  seen !! k = Some a → seen_after seen es !! k = Some a.
Proof.
  revert seen. induction es as [|[b n] es IH]; intros seen Hk; [done|].
  cbn [seen_after]. destruct (seen !! n) eqn:Hn; [by apply IH|].
  apply IH. rewrite lookup_insert_ne; [done|]. congruence.
Qed.

Lemma duplicates_from_fresh seen es :
  NoDup es.*2 → (∀ k, k ∈ es.*2 → seen !! k = None) → duplicates_from seen es = [].
Proof.
  revert seen. induction es as [|[a n] es IH]; intros seen Hnd Hfresh; [done|].
  rewrite fmap_cons in Hnd, Hfresh. apply NoDup_cons in Hnd as [Hn Hnd].
  cbn [duplicates_from]. rewrite (Hfresh n) by left.
  apply IH; [done|]. intros k Hk. rewrite lookup_insert_ne.
  - apply Hfresh. by right.
  - cbn in Hn. congruence.
Qed.

(** Every error of the scan names a recorded first title or an earlier
    entry. *)
Lemma duplicates_from_sublist seen es k a :
  seen !! k = Some a →
  sublist (duplicate_name_error k a <$> (filter (fun e => e.2 = k) es).*1)
          (duplicates_from seen es).
Proof.
  revert seen. induction es as [|[b n] es IH]; intros seen Hk; [done|].
  cbn [duplicates_from]. rewrite filter_cons. cbn [snd].
  destruct (decide (n = k)) as [->|Hne].
  - rewrite Hk. rewrite !fmap_cons. cbn [fst]. apply sublist_skip. by apply IH.
  - destruct (seen !! n) eqn:Hn.
    + apply sublist_cons. by apply IH.
    + apply IH. by rewrite lookup_insert_ne.
Qed.

Lemma first_title_snoc es a n k :
  first_title (es ++ [(a, n)]) k =
  match first_title es k with
  | Some first => Some first
  | None => if decide (n = k) then Some a else None
  end.
Proof.
  induction es as [|[b n'] es IH]; [done|].
  cbn [app first_title]. by destruct (decide (n' = k)).
Qed.

(** The dictionary of the loop holds the first title of every name
    already visited. *)
Lemma duplicates_from_flagged seen before es :
  (∀ k, seen !! k = first_title before k) →
  duplicates_from seen es = flagged_entries before es.
Proof.
  revert seen before. induction es as [|[a n] es IH]; intros seen before Hs; [done|].
  cbn [duplicates_from flagged_entries]. rewrite <- Hs.
  destruct (seen !! n) eqn:Hn; cbn [app].
  - f_equal. apply IH. intros k. rewrite first_title_snoc, <- Hs.
    destruct (seen !! k) eqn:Hk; [done|]. case_decide; congruence.
  - apply IH. intros k. rewrite first_title_snoc, <- Hs.
    destruct (decide (n = k)) as [->|Hne].
    + by rewrite lookup_insert_eq, Hn.
    + rewrite lookup_insert_ne by done. by destruct (seen !! k).
Qed.

End DuplicateNames.

Lemma duplicate_pair_errors (l1 l2 l3 : list (string * string)) (A B n : string) :
  NoDup (n :: (l1 ++ l2 ++ l3).*2) →
  duplicates_from ∅ (l1 ++ (A, n) :: l2 ++ (B, n) :: l3) = [duplicate_name_error n A B].
Proof.
  rewrite !fmap_app. intros [Hn Hnd]%NoDup_cons.
  rewrite !not_elem_of_app in Hn. destruct Hn as (Hn1 & Hn2 & Hn3).
  apply NoDup_app in Hnd as (Hd1 & H12 & Hnd).
  apply NoDup_app in Hnd as (Hd2 & H23 & Hd3).
  assert (H1 : ∀ k, k ∉ l1.*2 → seen_after ∅ l1 !! k = None).
  { intros k Hk. by rewrite seen_after_lookup_other. }
  rewrite duplicates_from_app, duplicates_from_fresh; [|done|done].
  cbn [app duplicates_from]. rewrite (H1 n Hn1).
  set (s2 := <[n:=A]> (seen_after ∅ l1)).
  assert (H2 : ∀ k, k ≠ n → k ∉ l1.*2 → s2 !! k = None).
  { intros k Hk Hk1. unfold s2. rewrite lookup_insert_ne by done. by apply H1. }
  rewrite duplicates_from_app, duplicates_from_fresh; [|done|].
  2:{ intros k Hk. apply H2; [congruence|]. intros Hk1. apply (H12 k Hk1).
      apply elem_of_app. by left. }
  cbn [app duplicates_from].
  rewrite (seen_after_lookup_Some s2 l2 n A) by apply lookup_insert_eq.
  f_equal. apply duplicates_from_fresh; [done|].
  intros k Hk. rewrite seen_after_lookup_other by (intros Hk2; by apply (H23 k Hk2)).
  apply H2; [congruence|]. intros Hk1. apply (H12 k Hk1). apply elem_of_app. by right.
Qed.

(** C4: when exactly two templates of the manifest share a name, the
    first in category [A] and the second in category [B] in manifest
    order, the duplicate-name check fails with exactly one error, which
    names [A] as the category seen first and [B] as the current one.  In
    general the errors are those of going through the templates in
    manifest order and reporting every template whose name occurred
    before against the title of the first occurrence: a first occurrence
    is never reported. *)
Theorem duplicate_name_reported_once
    (m : Manifest) (l1 l2 l3 : list (string * string)) (A B n : string) :
  titled_names m = l1 ++ (A, n) :: l2 ++ (B, n) :: l3 →
  NoDup (n :: (l1 ++ l2 ++ l3).*2) →
  check_duplicate_names m =
    (false, ["Duplicate template name '" +:+ n +:+ "' found in categories '"
             +:+ A +:+ "' and '" +:+ B +:+ "'"]) ∧
  (∀ m', (check_duplicate_names m').2 = flagged_entries [] (titled_names m')) ∧
  (∀ m', NoDup (titled_names m').*2 → check_duplicate_names m' = (true, [])).
Proof.
  intros Hm Hnd. split_and!.
  - rewrite check_duplicate_names_closed, Hm, duplicate_pair_errors by done. done.
  - intros m'. rewrite check_duplicate_names_closed. cbn [snd].
    apply duplicates_from_flagged. intros k. apply lookup_empty.
  - intros m' Hm'. rewrite check_duplicate_names_closed.
    rewrite duplicates_from_fresh; [done|done|]. intros k _. apply lookup_empty.
Qed.

Lemma duplicate_name_reported_once_witness :
  check_duplicate_names twice_manifest =
    (false, ["Duplicate template name 'flux_basic' found in categories 'A' and 'B'"]).
Proof.
  refine (proj1 (duplicate_name_reported_once twice_manifest [] [] []
                   "A" "B" "flux_basic" _ _)).
  - reflexivity.
  - apply NoDup_singleton.
Defined.

(** ** Empty names in the duplicate-name check *)

Lemma length_filter_fmap {A B} (P : B → Prop) `{!∀ y, Decision (P y)}
    (g : A → B) (l : list A) :
  length (filter P (g <$> l)) = length (filter (fun x => P (g x)) l).
Proof.
  induction l as [|x l IH]; [done|].
  rewrite fmap_cons, !filter_cons. case_decide; cbn [length]; by rewrite IH.
Qed.

Lemma filter_none {A} (P : A → Prop) `{!∀ x, Decision (P x)} (l : list A) :
  (∀ x, x ∈ l → ¬ P x) → filter P l = [].
Proof.
  induction l as [|x l IH]; intros Hl; [done|].
  rewrite filter_cons, decide_False by (apply Hl; left).
  apply IH. intros y Hy. apply Hl. by right.
Qed.

(** C9: the duplicate-name check takes a missing or empty name as the
    name [''].  After the first such template, in category [A], the
    dictionary maps [''] to [A], and every later such template is
    reported as a duplicate of it, in order; the file-consistency check
    reports each of these templates, the first included, as missing its
    name. *)
Theorem nameless_templates_flagged_as_duplicates
    (m : Manifest) (d : Directory) (l1 l2 : list (string * string)) (A : string) :
  titled_names m = l1 ++ (A, "") :: l2 → "" ∉ l1.*2 →
  let later := (filter (fun e : string * string => e.2 = "") l2).*1 in
  seen_after ∅ (l1 ++ [(A, "")]) !! "" = Some A ∧
  sublist (duplicate_name_error "" A <$> later) (check_duplicate_names m).2 ∧
  (∀ B, B ∈ later →
        ("Duplicate template name '' found in categories '" +:+ A +:+ "' and '"
         +:+ B +:+ "'") ∈ (check_duplicate_names m).2) ∧
  length (nameless_categories m) = S (length later) ∧
  sublist (missing_name_error <$> nameless_categories m)
          (check_file_consistency m d).1.2.
Proof.
  intros Hm Hl1 later.
  assert (Hseen : seen_after ∅ l1 !! "" = None)
    by (by rewrite seen_after_lookup_other).
  assert (Hsub : sublist (duplicate_name_error "" A <$> later)
                         (check_duplicate_names m).2).
  { rewrite check_duplicate_names_closed, Hm. cbn [snd].
    rewrite duplicates_from_app. apply sublist_inserts_l.
    cbn [duplicates_from]. rewrite Hseen.
    apply duplicates_from_sublist, lookup_insert_eq. }
  split_and!; [|done| | |].
  - assert (Hafter : ∀ s es, seen_after s (es ++ [(A, "")])
                             = seen_after (seen_after s es) [(A, "")]).
    { intros s es. revert s. induction es as [|[b n] es IH]; intros s; [done|].
      cbn [app seen_after]. by destruct (s !! n). }
    rewrite Hafter. cbn [seen_after]. rewrite Hseen. apply lookup_insert_eq.
  - intros B HB. eapply elem_of_sublist; [|exact Hsub].
    apply list_elem_of_fmap. by exists B.
  - unfold nameless_categories, later. rewrite !length_fmap.
    assert (Hlen : length (filter (fun e : Category * Template => template_name e.2 = "")
                                  (all_entries m))
                   = length (filter (fun e : string * string => e.2 = "") (titled_names m))).
    { unfold titled_names. by rewrite length_filter_fmap. }
    rewrite Hlen, Hm, filter_app, filter_cons, decide_True by done.
    rewrite (filter_none _ l1).
    + done.
    + intros [b n] Hin Hn. cbn in Hn. subst n. apply Hl1.
      apply list_elem_of_fmap. by exists (b, "").
  - rewrite file_consistency_errors, name_errors_nameless.
    by apply sublist_inserts_r.
Qed.

Lemma nameless_templates_flagged_as_duplicates_witness :
  "Duplicate template name '' found in categories 'A' and 'B'"
  ∈ (check_duplicate_names nameless_manifest).2.
Proof.
  refine (proj1 (proj2 (proj2
    (nameless_templates_flagged_as_duplicates nameless_manifest (flat_directory ∅)
       [] [("B", "")] "A" _ _))) "B" _).
  - reflexivity.
  - apply not_elem_of_nil.
  - left.
Defined.

(** ** Messages that name a file *)

Section MessagesAbout.

Variables (m : Manifest) (d : Directory).







End MessagesAbout.





(** ** The driver *)

Section Main.

Variable Schema : Type.
Variable validate : Manifest → Schema → Validation.

Lemma validate_schema_valid m schema :
  (validate_schema Schema validate m schema).1 = true → (validate_schema Schema validate m schema).2 = [].
Proof.
  unfold validate_schema.
  destruct schema as [s|e]; [destruct (validate m s)|]; cbn; congruence.
Qed.

Lemma check_duplicate_names_valid m :
  (check_duplicate_names m).1 = true → (check_duplicate_names m).2 = [].
Proof.
  rewrite check_duplicate_names_closed. cbn [fst snd].
  by intros ?%bool_decide_eq_true.
Qed.

Lemma check_required_thumbnails_valid m d :
  (check_required_thumbnails m d).1 = true → (check_required_thumbnails m d).2 = [].
Proof.
  unfold check_required_thumbnails. cbn [fst snd].
  intros Hl%bool_decide_eq_true. by destruct (foldl _ _ _).
Qed.

(** What the four stages leave in [all_errors] and [all_warnings], and
    that each prints its heading and one verdict. *)
Lemma run_checks_closed (w : World Schema) m (r : Run) :
  all_errors (run_checks Schema validate w m r) = all_errors r ++ collected_errors Schema validate w m ∧
  all_warnings (run_checks Schema validate w m r)
    = all_warnings r ++ (check_file_consistency m (directory w)).2 ∧
  ∃ v1 v2 v3 v4,
    stdout (run_checks Schema validate w m r)
    = stdout r ++ [stage_1; v1; stage_2; v2; stage_3; v3; stage_4; v4].
Proof.
  unfold run_checks, collected_errors, thumbnails_stage, duplicates_stage,
    consistency_stage, schema_stage.
  pose proof (validate_schema_valid m (schema_file w)) as H1.
  pose proof (check_duplicate_names_valid m) as H3.
  pose proof (check_required_thumbnails_valid m (directory w)) as H4.
  destruct (validate_schema Schema validate m (schema_file w)) as [valid1 errs1].
  destruct (check_file_consistency m (directory w)) as [[valid2 errs2] warns2].
  destruct (check_duplicate_names m) as [valid3 errs3].
  destruct (check_required_thumbnails m (directory w)) as [valid4 errs4].
  cbn [fst snd] in *.
  destruct valid1; [rewrite H1 by done|];
    destruct valid3; [rewrite H3 by done| |rewrite H3 by done|];
    destruct valid4; try rewrite H4 by done;
    destruct (valid2 && negb (nonempty warns2));
    destruct (valid2 && nonempty warns2);
    cbn [print extend_errors extend_warnings stdout all_errors all_warnings app];
    rewrite ?app_nil_r, <- ?List.app_assoc; cbn [app];
    (split_and!; [done..|]); eauto.
Qed.

End Main.

Section MainResult.

Variable Schema : Type.
Variable validate : Manifest → Schema → Validation.

Lemma warnings_section_closed (w : World Schema) (r : Run) :
  all_errors (warnings_section Schema w r) = all_errors r ∧
  ∃ rest, stdout (warnings_section Schema w r) = stdout r ++ rest.
Proof.
  unfold warnings_section. destruct (nonempty (all_warnings r)).
  - split; [done|]. cbn. rewrite <- List.app_assoc. eauto.
  - split; [done|]. exists []. by rewrite app_nil_r.
Qed.

Lemma summary_closed (w : World Schema) (r : Run) :
  (summary Schema w r).2 = (if nonempty (all_errors r) then 1 else 0)%Z ∧
  (∃ rest, (summary Schema w r).1 = stdout r ++ rest) ∧
  (∀ e, e ∈ all_errors r → ("   • " +:+ e) ∈ (summary Schema w r).1).
Proof.
  unfold summary. cbv zeta. cbn [print all_errors all_warnings stdout].
  destruct (nonempty (all_errors r)) eqn:He.
  - split_and!; [done| |].
    + cbn. rewrite <- !List.app_assoc. eauto.
    + intros e Hin. cbn [fst print_all stdout print all_errors].
      apply elem_of_app. right. apply list_elem_of_bind. exists e.
      split; [left|done].
  - split_and!.
    + by destruct (nonempty (all_warnings r)).
    + destruct (nonempty (all_warnings r)); cbn; rewrite <- !List.app_assoc; eauto.
    + intros e Hin. destruct (all_errors r); [by apply not_elem_of_nil in Hin|done].
Qed.

Lemma main_loaded (w : World Schema) m :
  path_exists (directory w) "index.json" = true →
  path_exists (directory w) "index.schema.json" = true →
  index_file w = Loaded m →
  main Schema validate w =
  summary Schema w
    (warnings_section Schema w
       (run_checks Schema validate w m
          {| stdout := banner Schema w; all_errors := []; all_warnings := [] |})).
Proof. intros H1 H2 H3. unfold main. by rewrite H1, H2, H3. Qed.

Lemma nonempty_false {A} (l : list A) : nonempty l = false ↔ l = [].
Proof. by destruct l. Qed.

Lemma main_exit_code (w : World Schema) m :
  path_exists (directory w) "index.json" = true →
  path_exists (directory w) "index.schema.json" = true →
  index_file w = Loaded m →
  (main Schema validate w).2
  = (if nonempty (collected_errors Schema validate w m) then 1 else 0)%Z.
Proof.
  intros H1 H2 H3. rewrite (main_loaded w m) by done.
  destruct (summary_closed w (warnings_section Schema w
    (run_checks Schema validate w m
       {| stdout := banner Schema w; all_errors := []; all_warnings := [] |})))
    as (-> & _ & _).
  destruct (warnings_section_closed w (run_checks Schema validate w m
       {| stdout := banner Schema w; all_errors := []; all_warnings := [] |}))
    as (-> & _).
  destruct (run_checks_closed Schema validate w m
       {| stdout := banner Schema w; all_errors := []; all_warnings := [] |})
    as (-> & _ & _).
  done.
Qed.

End MainResult.

(** C3: when the manifest and the schema both load, [main] returns 0
    exactly when the four checks together collected no error and 1
    exactly when they collected at least one; the exit code is computed
    from the collected errors alone, so the warnings of a run have no
    part in it. *)
Theorem exit_code_reflects_errors
    (Schema : Type) (validate : Manifest → Schema → Validation)
    (w : World Schema) (m : Manifest) (schema : Schema) :
  path_exists (directory w) "index.json" = true →
  path_exists (directory w) "index.schema.json" = true →
  index_file w = Loaded m → schema_file w = Loaded schema →
  let collected :=
    (validate_schema Schema validate m (schema_file w)).2 ++
    (check_file_consistency m (directory w)).1.2 ++
    (check_duplicate_names m).2 ++
    (check_required_thumbnails m (directory w)).2 in
  ((main Schema validate w).2 = 0%Z ↔ collected = []) ∧
  ((main Schema validate w).2 = 1%Z ↔ collected ≠ []) ∧
  (main Schema validate w).2 = (if decide (collected = []) then 0 else 1)%Z.
Proof.
  intros H1 H2 H3 _ collected.
  rewrite (main_exit_code Schema validate w m) by done.
  fold (collected_errors Schema validate w m) in collected. subst collected.
  destruct (collected_errors Schema validate w m) as [|e es]; cbn [nonempty].
  - rewrite decide_True by done. split_and!; [done| |done]. split; [lia|done].
  - rewrite decide_False by done. split_and!; [|done|done]. split; [lia|done].
Qed.

Lemma exit_code_reflects_errors_witness :
  (main unit (fun _ _ => Valid) orphan_world).2 = 0%Z ∧
  (check_file_consistency flux_manifest (directory orphan_world)).2
  = ["Workflow file not referenced in index.json: orphan.json"].
Proof.
  split.
  - refine (proj2 (proj1 (exit_code_reflects_errors unit (fun _ _ => Valid)
                            orphan_world flux_manifest () _ _ _ _)) _).
    + vm_compute. reflexivity.
    + vm_compute. reflexivity.
    + reflexivity.
    + reflexivity.
    + vm_compute. reflexivity.
  - vm_compute. reflexivity.
Defined.

(** ** Inputs that cannot be loaded *)

Lemma no_stage_line (Schema : Type) (w : World Schema) (message : string) :
  (∃ e, message = "❌ Error" +:+ e) →
  ∀ line, line ∈ stage_lines → line ∉ banner Schema w ++ [message].
Proof.
  intros [e ->] line Hline Hin. unfold stage_lines in Hline.
  unfold banner in Hin. cbn [app] in Hin.
  repeat (apply elem_of_cons in Hline as [Hline|Hline]);
    [..|by apply not_elem_of_nil in Hline]; subst line;
    repeat (apply elem_of_cons in Hin as [Hin|Hin]);
    try (by apply not_elem_of_nil in Hin); discriminate.
Qed.

(** C2, as the code has it: a missing manifest, a missing schema file and
    a manifest that is not JSON each end the run at once, with exit code
    1 and one message of its own after the two banner lines, and without
    any line of a check stage.  A schema file that is not JSON does not:
    [validate_schema] catches the failure and returns it as its error,
    the other three checks run, and the run ends with exit code 1 after
    the summary. *)
Theorem unloadable_inputs
    (Schema : Type) (validate : Manifest → Schema → Validation) (w : World Schema) :
  let d := directory w in
  (path_exists d "index.json" = false →
   main Schema validate w
   = (banner Schema w ++ ["❌ Error: index.json not found at " +:+ index_path Schema w],
      1%Z)) ∧
  (path_exists d "index.json" = true → path_exists d "index.schema.json" = false →
   main Schema validate w
   = (banner Schema w
      ++ ["❌ Error: index.schema.json not found at " +:+ schema_path Schema w], 1%Z)) ∧
  (∀ e, path_exists d "index.json" = true → path_exists d "index.schema.json" = true →
        index_file w = LoadFailed e →
        main Schema validate w
        = (banner Schema w ++ ["❌ Error loading index.json: " +:+ e], 1%Z)) ∧
  (∀ message line, (∃ e, message = "❌ Error" +:+ e) → line ∈ stage_lines →
                   line ∉ banner Schema w ++ [message]) ∧
  (∀ e e', index_not_found Schema w ≠ schema_not_found Schema w ∧
           index_load_error e ≠ index_not_found Schema w ∧
           index_load_error e' ≠ schema_not_found Schema w) ∧
  (∀ m e, path_exists d "index.json" = true → path_exists d "index.schema.json" = true →
          index_file w = Loaded m → schema_file w = LoadFailed e →
          (main Schema validate w).2 = 1%Z ∧
          (∀ line, line ∈ stage_lines → line ∈ (main Schema validate w).1) ∧
          ("   • Unexpected error during validation: " +:+ e)
          ∈ (main Schema validate w).1).
Proof.
  intros d. subst d. split_and!.
  - intros H1. unfold main. by rewrite H1.
  - intros H1 H2. unfold main. by rewrite H1, H2.
  - intros e H1 H2 H3. unfold main. by rewrite H1, H2, H3.
  - intros message line Hm Hl. by apply (no_stage_line Schema w message).
  - intros e e'. unfold index_not_found, schema_not_found, index_load_error.
    split_and!; discriminate.
  - intros m e H1 H2 H3 H4.
    set (r0 := {| stdout := banner Schema w; all_errors := []; all_warnings := [] |}).
    destruct (run_checks_closed Schema validate w m r0)
      as (Herrs & _ & v1 & v2 & v3 & v4 & Hout).
    destruct (warnings_section_closed Schema w (run_checks Schema validate w m r0))
      as (Hwe & rest1 & Hw).
    destruct (summary_closed Schema w
                (warnings_section Schema w (run_checks Schema validate w m r0)))
      as (Hexit & (rest2 & Hs) & Hprinted).
    assert (Hin : "Unexpected error during validation: " +:+ e
                  ∈ all_errors (run_checks Schema validate w m r0)).
    { rewrite Herrs. unfold collected_errors, validate_schema. rewrite H4.
      cbn [snd all_errors r0 app]. left. }
    rewrite (main_loaded Schema validate w m) by done. fold r0. split_and!.
    + rewrite Hexit, Hwe.
      by destruct (all_errors (run_checks Schema validate w m r0));
        [apply not_elem_of_nil in Hin|].
    + intros line Hline. rewrite Hs, Hw, Hout.
      rewrite !elem_of_app. left. left. right.
      unfold stage_lines in Hline.
      repeat (apply elem_of_cons in Hline as [->|Hline]);
        [..|by apply not_elem_of_nil in Hline];
        repeat first [by left|right].
    + apply Hprinted. by rewrite Hwe.
Qed.

Lemma unloadable_inputs_witness :
  (main unit (fun _ _ => Valid) broken_schema_world).2 = 1%Z.
Proof.
  refine (proj1 (proj2 (proj2 (proj2 (proj2 (proj2
    (unloadable_inputs unit (fun _ _ => Valid) broken_schema_world)))))
    flux_manifest "Expecting value: line 1 column 1 (char 0)" _ _ _ _)).
  - vm_compute. reflexivity.
  - vm_compute. reflexivity.
  - reflexivity.
  - reflexivity.
Defined.

(** C2 as the spec words it fails on the code: with a schema file that is
    not JSON the run does not stop before the checks; the stages print,
    here the file-consistency stage with its verdict, and the exit code
    is 1. *)
Lemma schema_parse_failure_runs_checks :
  let result := main unit (fun _ _ => Valid) broken_schema_world in
  result.2 = 1%Z ∧
  stage_2 ∈ result.1 ∧
  "   ✅ File consistency check passed" ∈ result.1 ∧
  length result.1 > 3.
Proof.
  cbv zeta. split_and!.
  - vm_compute. reflexivity.
  - apply (bool_decide_unpack _). by vm_compute.
  - apply (bool_decide_unpack _). by vm_compute.
  - vm_compute. lia.
Qed.

(** * Further properties of the checks *)

(** ** Workflow files *)


(** X1: the file-consistency check warns that a workflow file is not
    referenced exactly for the files of the directory listing that are
    not special files, end in [.json] and are not [<name>.json] for a
    template with a non-empty name. *)
Theorem orphaned_workflow_warning_iff (m : Manifest) (d : Directory) (f : string) :
  orphaned_workflow_warning f ∈ (check_file_consistency m d).2 ↔
  f ∈ file_names d ∧ (f ∉ special_files) ∧ PyStr.endswith f ".json" = true ∧
  ¬ ∃ c t, c ∈ m ∧ t ∈ get (templates c) [] ∧ template_name t ≠ "" ∧
           f = template_name t +:+ ".json".
Proof.
  rewrite workflow_warning_iff, elem_of_workflow_files, elem_of_workflows_of.
  unfold workflow_file. tauto.
Qed.

Lemma filter_eq_NoDup (l : list string) (x : string) :
  NoDup l → length (filter (fun y => y = x) l) ≤ 1.
Proof.
  induction 1 as [|y l Hy Hl IH]; [cbn; lia|].
  rewrite filter_cons. case_decide as Hx; [|done]. subst y. cbn [length].
  rewrite (filter_none (fun y => y = x) l); [done|]. intros z Hz ->. done.
Qed.

(** X2: a workflow file is reported as not found exactly when it is
    [<name>.json] for a template with a non-empty name and does not
    exist; it is reported once, however many templates carry that name,
    since the referenced workflow files are kept in a set. *)
Theorem missing_workflow_reported_once (m : Manifest) (d : Directory) (w : string) :
  let errs := (check_file_consistency m d).1.2 in
  (workflow_not_found_error w ∈ errs ↔
   (∃ c t, c ∈ m ∧ t ∈ get (templates c) [] ∧ template_name t ≠ "" ∧
           w = template_name t +:+ ".json") ∧
   path_exists d w = false) ∧
  length (filter (fun e => e = workflow_not_found_error w) errs) ≤ 1.
Proof.
  intros errs. subst errs. rewrite file_consistency_errors. split.
  - rewrite elem_of_app, list_elem_of_bind, list_elem_of_fmap.
    rewrite <- (elem_of_workflows_of m w). split.
    + intros [(e & He & _)|(w' & Hw & Hin)].
      * unfold name_errors in He.
        destruct (PyStr.is_empty _); [|by apply not_elem_of_nil in He].
        apply list_elem_of_singleton in He. discriminate.
      * apply (inj (String.app _)) in Hw as <-.
        apply list_elem_of_filter in Hin as [Hno Hin].
        by apply elem_of_elements in Hin.
    + intros [Hin Hno]. right. exists w. split; [done|].
      apply list_elem_of_filter. by rewrite elem_of_elements.
  - rewrite filter_app, length_app.
    rewrite (filter_none _ (all_entries m ≫= name_errors)).
    + apply filter_eq_NoDup, (NoDup_fmap_2 (String.app _)), NoDup_filter,
        NoDup_elements.
    + intros e (x & He & _)%list_elem_of_bind ->. unfold name_errors in He.
      destruct (PyStr.is_empty _); [|by apply not_elem_of_nil in He].
      apply list_elem_of_singleton in He. discriminate.
Qed.

(** X3: the file-consistency check succeeds exactly when every template
    has a non-empty name and its workflow file [<name>.json] exists;
    thumbnails and unreferenced files have no part in its verdict. *)
Theorem file_consistency_passes_iff (m : Manifest) (d : Directory) :
  (check_file_consistency m d).1.1 = true ↔
  ∀ c t, c ∈ m → t ∈ get (templates c) [] →
         template_name t ≠ "" ∧ path_exists d (template_name t +:+ ".json") = true.
Proof.
  assert (Hflag : (check_file_consistency m d).1.1 = true
                  ↔ (check_file_consistency m d).1.2 = []).
  { unfold check_file_consistency. cbn [fst snd].
    rewrite bool_decide_eq_true. by destruct (errors _). }
  rewrite Hflag, file_consistency_errors. split.
  - intros Herrs c t Hc Ht.
    apply app_eq_nil in Herrs as [Hnames Hfiles].
    assert (Hn : template_name t ≠ "").
    { intros Hn. assert (Hin : missing_name_error c ∈ all_entries m ≫= name_errors).
      { apply list_elem_of_bind. exists (c, t). split; [|by apply elem_of_all_entries].
        unfold name_errors. cbn [fst snd]. rewrite Hn. left. }
      rewrite Hnames in Hin. by apply not_elem_of_nil in Hin. }
    split; [done|]. destruct (path_exists d _) eqn:He; [done|].
    assert (Hin : workflow_not_found_error (template_name t +:+ ".json")
                  ∈ workflow_not_found_error <$> missing d (elements (workflows_of m))).
    { apply list_elem_of_fmap. eexists. split; [done|].
      apply list_elem_of_filter. split; [done|].
      apply elem_of_elements, elem_of_workflows_of. eauto 8. }
    rewrite Hfiles in Hin. by apply not_elem_of_nil in Hin.
  - intros Hall.
    destruct (_ ++ _) as [|e es] eqn:Herrs; [done|]. exfalso.
    assert (Hin : e ∈ e :: es) by left. rewrite <- Herrs in Hin.
    apply elem_of_app in Hin as [Hin|Hin].
    + apply list_elem_of_bind in Hin as ([c t] & He & [Hc Ht]%elem_of_all_entries).
      unfold name_errors in He. cbn [snd] in He.
      destruct (PyStr.is_empty (template_name t)) eqn:Hn;
        [|by apply not_elem_of_nil in He].
      apply is_empty_true in Hn. by destruct (Hall c t Hc Ht).
    + apply list_elem_of_fmap in Hin as (w & _ & Hw).
      apply list_elem_of_filter in Hw as [Hno Hw].
      apply elem_of_elements, elem_of_workflows_of in Hw
        as (c & t & Hc & Ht & _ & ->).
      destruct (Hall c t Hc Ht) as [_ Hex]. unfold workflow_file in Hno. congruence.
Qed.

(** X4: every warning of the file-consistency check is about a file of
    the directory listing that is not one of the four special files: an
    unreferenced-workflow warning for a file that ends in [.json], an
    unreferenced-media warning for one that does not.  There are at most
    as many warnings as such files. *)
Theorem warnings_name_listed_files (m : Manifest) (d : Directory) :
  (∀ w, w ∈ (check_file_consistency m d).2 →
        ∃ f, f ∈ file_names d ∧ (f ∉ special_files) ∧
             (w = "Workflow file not referenced in index.json: " +:+ f ∧
              PyStr.endswith f ".json" = true ∨
              w = "Media file not referenced in index.json: " +:+ f ∧
              PyStr.endswith f ".json" = false)) ∧
  length (check_file_consistency m d).2 ≤ size (file_names d ∖ special_files).
Proof.
  rewrite file_consistency_warnings. split.
  - intros w [(f & -> & Hf)%list_elem_of_fmap|(f & -> & Hf)%list_elem_of_fmap]%elem_of_app.
    + apply elem_of_elements, elem_of_difference in Hf as [Hf _].
      apply elem_of_workflow_files in Hf as (? & ? & ?). exists f. eauto.
    + apply elem_of_potential_orphans in Hf as [Hf _].
      apply elem_of_media_files in Hf as (? & ? & ?). exists f. eauto.
  - rewrite length_app, !length_fmap, potential_orphans_filter.
    fold (all_files d).
    change (length (elements (workflow_files d ∖ workflows_of m)))
      with (size (workflow_files d ∖ workflows_of m)).
    assert (Hw : size (workflow_files d ∖ workflows_of m) ≤ size (workflow_files d)).
    { apply subseteq_size. intros x [? _]%elem_of_difference. done. }
    pose proof (length_filter (fun f => is_referenced (workflows_of m) f = false)
                  (elements (media_files d))) as Hm.
    change (length (elements (media_files d))) with (size (media_files d)) in Hm.
    assert (Hsub : workflow_files d ⊆ all_files d).
    { intros x Hx. unfold workflow_files in Hx. by apply elem_of_filter in Hx as [_ ?]. }
    assert (Hsize : size (media_files d) = size (all_files d) - size (workflow_files d))
      by (unfold media_files; by rewrite size_difference).
    pose proof (subseteq_size _ _ Hsub). lia.
Qed.

(** ** What the file-consistency check does not read *)

Lemma all_entries_with_subtypes g m :
  (fun e : Category * Template => (title e.1, name e.2)) <$> all_entries (with_subtypes g m)
  = (fun e : Category * Template => (title e.1, name e.2)) <$> all_entries m.
Proof.
  induction m as [|c m IH]; [done|].
  unfold with_subtypes, all_entries in *. rewrite fmap_cons, !bind_cons, !fmap_app, IH.
  f_equal. cbn [templates title].
  destruct (templates c) as [ts|]; cbn [fmap option_fmap option_map get default];
    [|done].
  rewrite <- !list_fmap_compose. unfold id. rewrite <- list_fmap_compose.
  by apply list_fmap_ext.
Qed.

Lemma name_errors_titles_names (es es' : list (Category * Template)) :
  (fun e : Category * Template => (title e.1, name e.2)) <$> es
  = (fun e : Category * Template => (title e.1, name e.2)) <$> es' →
  es ≫= name_errors = es' ≫= name_errors ∧
  es.*2 ≫= workflow_of = es'.*2 ≫= workflow_of.
Proof.
  revert es'. induction es as [|[c t] es IH]; intros [|[c' t'] es'] Heq;
    [done|done|done|].
  rewrite !fmap_cons in Heq. injection Heq as Ht Hn Hes.
  destruct (IH es' Hes) as [IH1 IH2].
  rewrite !fmap_cons, !bind_cons, IH1, IH2.
  unfold name_errors, workflow_of, template_name, missing_name_error.
  cbn [fst snd] in *. by rewrite Ht, Hn.
Qed.

(** X5: the result of the file-consistency check does not depend on the
    [mediaSubtype] of any template: the referenced-thumbnails set it
    builds from them reaches neither the verdict, nor the errors, nor the
    warnings. *)
Theorem file_consistency_ignores_subtypes
    (g : Template → option string) (m : Manifest) (d : Directory) :
  check_file_consistency (with_subtypes g m) d = check_file_consistency m d.
Proof.
  destruct (name_errors_titles_names _ _ (all_entries_with_subtypes g m)) as [H1 H2].
  assert (Hw : workflows_of (with_subtypes g m) = workflows_of m)
    by (unfold workflows_of; by rewrite H2).
  unfold check_file_consistency. rewrite !file_consistency_scan_closed.
  cbn [errors warnings]. by rewrite H1, Hw.
Qed.

(** ** The empty manifest *)

Lemma is_referenced_empty f : is_referenced ∅ f = false.
Proof. unfold is_referenced, template_names. by rewrite elements_empty. Qed.

(** X6: on an empty manifest the three manifest-driven checks succeed
    without an error, and the file-consistency check warns once about
    every file of the listing that is not a special file: as a workflow
    file when its name ends in [.json], as a media file otherwise. *)
Theorem empty_manifest_reports_every_file (d : Directory) :
  (check_file_consistency [] d).1 = (true, []) ∧
  check_duplicate_names [] = (true, []) ∧
  check_required_thumbnails [] d = (true, []) ∧
  (∀ f, f ∈ file_names d → f ∉ special_files →
        (if PyStr.endswith f ".json"
         then "Workflow file not referenced in index.json: " +:+ f
         else "Media file not referenced in index.json: " +:+ f)
        ∈ (check_file_consistency [] d).2) ∧
  length (check_file_consistency [] d).2 = size (file_names d ∖ special_files).
Proof.
  assert (Hw : workflows_of [] = ∅) by done.
  split_and!; [|done|done| |].
  - unfold check_file_consistency. rewrite file_consistency_scan_closed.
    cbn [errors fst]. by rewrite Hw, elements_empty.
  - intros f Hf Hs. destruct (PyStr.endswith f ".json") eqn:He.
    + apply workflow_warning_iff. rewrite Hw, elem_of_workflow_files.
      split; [done|]. apply not_elem_of_empty.
    + apply media_warning_iff. rewrite Hw, elem_of_media_files.
      split; [done|]. apply is_referenced_empty.
  - rewrite file_consistency_warnings, length_app, !length_fmap,
      potential_orphans_filter, Hw.
    rewrite (difference_empty_L (workflow_files d)).
    assert (Hall : filter (fun f => is_referenced ∅ f = false) (elements (media_files d))
                   = elements (media_files d)).
    { generalize (elements (media_files d)). intros l.
      induction l as [|x l IH]; [done|].
      rewrite filter_cons, decide_True by apply is_referenced_empty. by rewrite IH. }
    rewrite Hall.
    change (size (workflow_files d) + size (media_files d) = size (all_files d)).
    assert (Hsub : workflow_files d ⊆ all_files d).
    { intros x Hx. unfold workflow_files in Hx. by apply elem_of_filter in Hx as [_ ?]. }
    unfold media_files. rewrite size_difference by done.
    pose proof (subseteq_size _ _ Hsub). lia.
Qed.

(** ** The verdict of the duplicate-name check *)

Lemma duplicates_from_nil_inv (seen : gmap string string) (es : list (string * string)) :
  duplicates_from seen es = [] →
  NoDup es.*2 ∧ ∀ k, k ∈ es.*2 → seen !! k = None.
Proof.
  revert seen. induction es as [|[a n] es IH]; intros seen Hnil.
  - split; [constructor|]. by intros k ?%not_elem_of_nil.
  - cbn [duplicates_from] in Hnil. destruct (seen !! n) eqn:Hn; [done|].
    destruct (IH _ Hnil) as [Hnd Hfresh]. rewrite fmap_cons. cbn [snd]. split.
    + apply NoDup_cons. split; [|done]. intros Hin.
      specialize (Hfresh n Hin). by rewrite lookup_insert_eq in Hfresh.
    + intros k [->|Hk]%elem_of_cons; [done|].
      specialize (Hfresh k Hk). destruct (decide (n = k)) as [->|Hne].
      * by rewrite lookup_insert_eq in Hfresh.
      * by rewrite lookup_insert_ne in Hfresh.
Qed.

Lemma duplicates_from_length (seen : gmap string string) (es : list (string * string)) :
  length (duplicates_from seen es)
  + size (dom seen ∪ list_to_set (C := gset string) es.*2)
  = length es + size (dom seen).
Proof.
  revert seen. induction es as [|[a n] es IH]; intros seen.
  - cbn [duplicates_from fmap list_fmap list_to_set length].
    by rewrite (right_id_L ∅ (∪)).
  - cbn [duplicates_from]. rewrite fmap_cons. cbn [snd list_to_set length].
    destruct (seen !! n) as [first|] eqn:Hn.
    + cbn [length]. specialize (IH seen).
      assert (Hin : n ∈ dom seen) by (apply elem_of_dom; eauto).
      rewrite (assoc_L (∪)), (comm_L (∪) (dom seen) {[n]}),
        (subseteq_union_1_L {[n]} (dom seen)).
      * lia.
      * by apply singleton_subseteq_l.
    + specialize (IH (<[n := a]> seen)).
      rewrite dom_insert_L in IH.
      rewrite (size_union {[n]} (dom seen)), size_singleton in IH.
      * rewrite (assoc_L (∪)), (comm_L (∪) (dom seen) {[n]}). cbn [length]. lia.
      * apply disjoint_singleton_l. by apply not_elem_of_dom.
Qed.

(** X7: the duplicate-name check succeeds exactly when no two templates
    of the manifest have the same name, a missing name counting as the
    empty name; and it returns one error for every template beyond the
    first of each name, so the number of errors is the number of
    templates less the number of distinct names. *)
Theorem duplicate_errors_count (m : Manifest) :
  ((check_duplicate_names m).1 = true ↔ NoDup (titled_names m).*2) ∧
  length (check_duplicate_names m).2
  = length (all_entries m)
    - size (list_to_set (C := gset string) (template_name <$> (all_entries m).*2)).
Proof.
  rewrite check_duplicate_names_closed. cbn [fst snd]. split.
  - rewrite bool_decide_eq_true. split.
    + by intros [? _]%duplicates_from_nil_inv.
    + intros Hnd. apply duplicates_from_fresh; [done|]. intros k _. apply lookup_empty.
  - pose proof (duplicates_from_length ∅ (titled_names m)) as H.
    rewrite dom_empty_L, (left_id_L ∅ (∪)), size_empty in H.
    assert (Hn : (titled_names m).*2 = template_name <$> (all_entries m).*2).
    { unfold titled_names. rewrite <- !list_fmap_compose. by apply list_fmap_ext. }
    assert (Hl : length (titled_names m) = length (all_entries m))
      by (unfold titled_names; by rewrite length_fmap).
    rewrite Hn, Hl in H. lia.
Qed.

(** X8: when a name is first met in category [A], every later template
    of that name is reported against [A], in manifest order, however
    many there are: the category recorded for a name is never
    replaced. *)
Theorem duplicates_charged_to_first_category
    (m : Manifest) (l1 l2 : list (string * string)) (A n : string) :
  titled_names m = l1 ++ (A, n) :: l2 → n ∉ l1.*2 →
  sublist ((fun B => "Duplicate template name '" +:+ n +:+ "' found in categories '"
                     +:+ A +:+ "' and '" +:+ B +:+ "'")
           <$> (filter (fun e : string * string => e.2 = n) l2).*1)
          (check_duplicate_names m).2 ∧
  length (filter (fun e : string * string => e.2 = n) l2)
  ≤ length (check_duplicate_names m).2.
Proof.
  intros Hm Hn.
  assert (Hsub : sublist (duplicate_name_error n A
                          <$> (filter (fun e : string * string => e.2 = n) l2).*1)
                         (check_duplicate_names m).2).
  { rewrite check_duplicate_names_closed, Hm. cbn [snd].
    rewrite duplicates_from_app. apply sublist_inserts_l.
    cbn [duplicates_from]. rewrite seen_after_lookup_other by done.
    rewrite lookup_empty. apply duplicates_from_sublist, lookup_insert_eq. }
  split; [done|].
  apply sublist_length in Hsub. by rewrite !length_fmap in Hsub.
Qed.

Lemma duplicates_charged_to_first_category_witness :
  sublist ["Duplicate template name 'flux_basic' found in categories 'A' and 'B'";
           "Duplicate template name 'flux_basic' found in categories 'A' and 'C'"]
          (check_duplicate_names thrice_manifest).2 ∧
  2 ≤ length (check_duplicate_names thrice_manifest).2.
Proof.
  apply (duplicates_charged_to_first_category thrice_manifest
           [] [("B", "flux_basic"); ("C", "flux_basic")] "A" "flux_basic").
  - reflexivity.
  - apply not_elem_of_nil.
Defined.

(** ** The verdict and the error list of a check *)

(** X9: each of the four checks returns its verdict and its error list in
    agreement: valid exactly when the list is empty.  [main] adds the
    errors of three of the checks to its own list only when the verdict
    is not valid, so this is what keeps it from dropping a message.  For
    [validate_schema] valid means that the schema loaded and the
    validation routine returned normally, and a failure comes with one
    message, or two when a validation error carries a path. *)
Theorem verdicts_agree_with_errors
    (Schema : Type) (validate : Manifest → Schema → Validation)
    (m : Manifest) (d : Directory) (file : Load Schema) :
  let schema_result := validate_schema Schema validate m file in
  (schema_result.1 = true ↔ schema_result.2 = []) ∧
  (schema_result.1 = true ↔ ∃ schema, file = Loaded schema ∧ validate m schema = Valid) ∧
  (schema_result.1 = false → 1 ≤ length schema_result.2 ≤ 2) ∧
  (length schema_result.2 = 2 ↔
   ∃ schema message p path, file = Loaded schema ∧
     validate m schema = ValidationError message (p :: path) ∧
     schema_result.2 = ["Schema validation error: " +:+ message;
                        "  at path: " +:+ PyStr.join "." (p :: path)]) ∧
  ((check_file_consistency m d).1.1 = true ↔ (check_file_consistency m d).1.2 = []) ∧
  ((check_duplicate_names m).1 = true ↔ (check_duplicate_names m).2 = []) ∧
  ((check_required_thumbnails m d).1 = true ↔ (check_required_thumbnails m d).2 = []).
Proof.
  cbv zeta. split_and!.
  - unfold validate_schema.
    destruct file as [s|e]; [destruct (validate m s) as [|msg [|p path]|]|]; by cbn.
  - unfold validate_schema. destruct file as [s|e].
    + destruct (validate m s) as [|msg path|] eqn:Hv; cbn [fst].
      * split; [eauto|done].
      * split; [done|]. intros (s' & [= <-] & Hs). congruence.
      * split; [done|]. intros (s' & [= <-] & Hs). congruence.
    + cbn [fst]. split; [done|]. by intros (s' & ? & _).
  - unfold validate_schema.
    destruct file as [s|e]; [destruct (validate m s) as [|msg [|p path]|]|];
      cbn; intros; try done; lia.
  - unfold validate_schema. destruct file as [s|e].
    + destruct (validate m s) as [|msg [|p path]|] eqn:Hv; cbn [snd app length].
      * split; [done|]. intros (s' & msg & p & path & [= <-] & Hs & _). congruence.
      * split; [done|]. intros (s' & msg' & p & path & [= <-] & Hs & _). congruence.
      * split; [|done]. intros _. by exists s, msg, p, path.
      * split; [done|]. intros (s' & msg & p & path & [= <-] & Hs & _). congruence.
    + cbn [snd length]. split; [done|]. by intros (s' & msg & p & path & ? & _).
  - unfold check_file_consistency. cbn [fst snd]. rewrite bool_decide_eq_true.
    by destruct (errors _).
  - rewrite check_duplicate_names_closed. cbn [fst snd]. apply bool_decide_eq_true.
  - unfold check_required_thumbnails. cbn [fst snd]. rewrite bool_decide_eq_true.
    by destruct (foldl _ _ _).
Qed.

(** ** The first thumbnail in the two checks that look for it *)

Lemma thumbnail_file_1 (n media_subtype : string) :
  thumbnail_file n 1 media_subtype = thumbnail_1 n media_subtype.
Proof. reflexivity. Qed.

(** X10: the required-thumbnail check and the file-consistency check ask
    the directory about the first thumbnail of a template
    independently, and agree: for a template of the manifest with a
    name and a media subtype, the first reports the thumbnail as
    missing exactly when the second has not put it in its set of
    referenced thumbnails. *)
Theorem required_thumbnail_missing_iff_unreferenced
    (m : Manifest) (d : Directory) (c : Category) (t : Template) :
  c ∈ m → t ∈ get (templates c) [] →
  template_name t ≠ "" → template_subtype t ≠ "" →
  let f := template_name t +:+ "-1." +:+ template_subtype t in
  ("Missing required thumbnail: " +:+ f) ∈ (check_required_thumbnails m d).2 ↔
  f ∉ referenced_thumbnails (file_consistency_scan m d).
Proof.
  intros Hc Ht Hn Hs f. rewrite required_thumbnails_errors, file_consistency_scan_closed.
  cbn [referenced_thumbnails]. fold (thumbnail_1 (template_name t) (template_subtype t)) in f.
  rewrite list_elem_of_bind. split.
  - intros (t' & Hin & _) Hf. apply thumbnails_of_exist in Hf.
    unfold thumbnail_report in Hin.
    destruct (decide (lacks_thumbnail d t')) as [(_ & _ & Hno)|_];
      [|by apply not_elem_of_nil in Hin].
    apply list_elem_of_singleton in Hin.
    apply (inj (String.app _)) in Hin. subst f. rewrite Hin in Hf. congruence.
  - intros Hf. exists t. split.
    + unfold thumbnail_report. rewrite decide_True; [left|].
      split_and!; [done..|]. destruct (path_exists d _) eqn:He; [|done].
      exfalso. apply Hf. apply elem_of_thumbnails_of. exists c, t, 1.
      split_and!; [done..|lia|by rewrite thumbnail_file_1|done].
    + apply list_elem_of_fmap. exists (c, t). split; [done|].
      by apply elem_of_all_entries.
Qed.

Lemma required_thumbnail_missing_iff_unreferenced_witness :
  "Missing required thumbnail: flux_basic-1.webp"
    ∈ (check_required_thumbnails flux_manifest (flat_directory ∅)).2 ↔
  "flux_basic-1.webp"
    ∉ referenced_thumbnails (file_consistency_scan flux_manifest (flat_directory ∅)).
Proof.
  apply (required_thumbnail_missing_iff_unreferenced flux_manifest (flat_directory ∅)
           {| title := Some "Basics";
              templates := Some [ {| name := Some "flux_basic";
                                     mediaSubtype := Some "webp" |} ] |}
           {| name := Some "flux_basic"; mediaSubtype := Some "webp" |}).
  - left.
  - left.
  - discriminate.
  - discriminate.
Defined.

(** ** What the file-consistency check asks the directory *)

Lemma size_list_to_set_le (l : list string) :
  size (list_to_set (C := gset string) l) ≤ length l.
Proof.
  induction l as [|x l IH]; [done|].
  cbn [list_to_set length]. rewrite size_union_alt, size_singleton.
  assert (Hsub : list_to_set (C := gset string) l ∖ {[x]} ⊆ list_to_set l)
    by apply subseteq_difference_l, reflexivity.
  apply subseteq_size in Hsub. lia.
Qed.

Lemma length_bind_le {A B} (f : A → list B) (k : nat) (l : list A) :
  (∀ x, length (f x) ≤ k) → length (l ≫= f) ≤ k * length l.
Proof.
  intros Hf. induction l as [|x l IH]; [cbn; lia|].
  rewrite bind_cons, length_app. cbn [length]. specialize (Hf x). lia.
Qed.

Lemma length_thumbnail_candidates t : length (thumbnail_candidates t) ≤ 9.
Proof.
  unfold thumbnail_candidates. destruct (_ || _); [cbn; lia|].
  by rewrite length_fmap.
Qed.

Lemma length_found_thumbnails d t : length (found_thumbnails d t) ≤ 9.
Proof.
  unfold found_thumbnails.
  etransitivity; [apply length_filter|apply length_thumbnail_candidates].
Qed.

Lemma length_workflow_of t : length (workflow_of t) ≤ 1.
Proof. unfold workflow_of. destruct (PyStr.is_empty _); cbn; lia. Qed.

(** X11: the paths whose existence the file-consistency check asks the
    directory for are the workflow file of every named template and,
    when the template declares a media subtype, its thumbnails numbered
    1 to 9, and nothing else; the check asks at most 19 times per
    template of the manifest. *)
Theorem file_consistency_probes (m : Manifest) (d : Directory) :
  (∀ p, p ∈ probed (file_consistency_scan m d) ↔
        ∃ c t, c ∈ m ∧ t ∈ get (templates c) [] ∧ template_name t ≠ "" ∧
               (p = template_name t +:+ ".json" ∨
                template_subtype t ≠ "" ∧
                ∃ i, 1 ≤ i ≤ 9 ∧
                     p = template_name t +:+ "-" +:+ pretty i +:+ "."
                         +:+ template_subtype t)) ∧
  length (probed (file_consistency_scan m d)) ≤ 19 * length (all_entries m).
Proof.
  rewrite file_consistency_scan_closed. cbn [probed]. split.
  - intros p. rewrite !elem_of_app, !elem_of_elements, list_elem_of_bind,
      elem_of_workflows_of, elem_of_thumbnails_of. split.
    + intros [(t & Hp & [[c t'] [-> Hin]]%list_elem_of_fmap)
             |[(c & t & Hc & Ht & Hn & ->)
              |(c & t & i & Hc & Ht & Hn & Hs & Hi & -> & _)]].
      * apply elem_of_all_entries in Hin as [Hc Ht]. cbn [snd] in Hp.
        apply elem_of_thumbnail_candidates in Hp as (Hn & Hs & i & Hi & ->).
        exists c, t'. split_and!; [done..|]. right. eauto.
      * exists c, t. split_and!; [done..|]. by left.
      * exists c, t. split_and!; [done..|]. right. eauto.
    + intros (c & t & Hc & Ht & Hn & [->|(Hs & i & Hi & ->)]).
      * right. left. by exists c, t.
      * left. exists t. split.
        -- apply elem_of_thumbnail_candidates. split_and!; [done..|]. by exists i.
        -- apply list_elem_of_fmap. exists (c, t). split; [done|].
           by apply elem_of_all_entries.
  - rewrite !length_app.
    pose proof (length_bind_le thumbnail_candidates 9 (all_entries m).*2
                  length_thumbnail_candidates) as H1.
    pose proof (size_list_to_set_le ((all_entries m).*2 ≫= workflow_of)) as H2.
    pose proof (length_bind_le workflow_of 1 (all_entries m).*2 length_workflow_of) as H2'.
    pose proof (size_list_to_set_le ((all_entries m).*2 ≫= found_thumbnails d)) as H3.
    pose proof (length_bind_le (found_thumbnails d) 9 (all_entries m).*2
                  (length_found_thumbnails d)) as H3'.
    rewrite length_fmap in H1, H2', H3'.
    unfold workflows_of, thumbnails_of.
    change (length (elements ?X)) with (size X). lia.
Qed.

(** ** The report of a run *)

Section Report.

Variable Schema : Type.
Variable validate : Manifest → Schema → Validation.

Lemma run_checks_stdout (w : World Schema) m (r : Run) :
  stdout (run_checks Schema validate w m r) = stdout r ++ stage_report Schema validate w m.
Proof.
  unfold run_checks, stage_report, thumbnails_stage, duplicates_stage,
    consistency_stage, schema_stage.
  destruct (validate_schema Schema validate m (schema_file w)) as [valid1 errs1].
  destruct (check_file_consistency m (directory w)) as [[valid2 errs2] warns2].
  destruct (check_duplicate_names m) as [valid3 errs3].
  destruct (check_required_thumbnails m (directory w)) as [valid4 errs4].
  cbn [fst snd].
  destruct valid1, valid2, valid3, valid4, (nonempty warns2);
    cbn [andb negb print extend_errors extend_warnings stdout];
    by rewrite <- ?List.app_assoc.
Qed.

(** The whole output of a run whose inputs load. *)
Lemma main_report (w : World Schema) m :
  path_exists (directory w) "index.json" = true →
  path_exists (directory w) "index.schema.json" = true →
  index_file w = Loaded m →
  main Schema validate w =
  (banner Schema w ++ stage_report Schema validate w m
   ++ warnings_report w (check_file_consistency m (directory w)).2
   ++ summary_report w (collected_errors Schema validate w m)
        (check_file_consistency m (directory w)).2,
   if nonempty (collected_errors Schema validate w m) then 1%Z else 0%Z).
Proof.
  intros H1 H2 H3. rewrite (main_loaded Schema validate w m) by done.
  set (r0 := {| stdout := banner Schema w; all_errors := []; all_warnings := [] |}).
  destruct (run_checks_closed Schema validate w m r0) as (Herrs & Hwarns & _).
  pose proof (run_checks_stdout w m r0) as Hout.
  cbn [r0 stdout all_errors all_warnings app] in Herrs, Hwarns, Hout.
  unfold summary, warnings_section, warnings_report, summary_report. cbv zeta.
  rewrite Hwarns.
  destruct (check_file_consistency m (directory w)).2 as [|wn warns] eqn:Hw;
    cbn [nonempty print print_all stdout all_errors all_warnings];
    rewrite ?Hwarns, Herrs, Hout;
    destruct (collected_errors Schema validate w m) as [|e errs];
    cbn [nonempty print print_all stdout all_errors all_warnings fst snd];
    rewrite ?Hwarns, ?Herrs, ?Hout, <- ?List.app_assoc; cbn [app nonempty];
    try reflexivity.
Qed.

End Report.

(** ** Reading the report *)

Lemma printed_after_app p out1 out2 :
  printed_after p (out1 ++ out2) = printed_after p out1 ++ printed_after p out2.
Proof. apply omap_app. Qed.

Lemma printed_after_bind {A} p (f : A → list string) (l : list A) :
  printed_after p (l ≫= f) = l ≫= fun x => printed_after p (f x).
Proof.
  induction l as [|x l IH]; [done|].
  by rewrite !bind_cons, printed_after_app, IH.
Qed.

Lemma bind_singleton {A} (l : list A) : l ≫= (fun x => [x]) = l.
Proof. induction l as [|x l IH]; [done|]. rewrite bind_cons, IH. done. Qed.

Lemma bind_nil_all {A B} (l : list A) : l ≫= (fun _ => @nil B) = [].
Proof. induction l as [|x l IH]; [done|]. by rewrite bind_cons, IH. Qed.

Lemma bind_ext_all {A B} (f g : A → list B) (l : list A) :
  (∀ x, f x = g x) → l ≫= f = l ≫= g.
Proof.
  intros Hfg. induction l as [|x l IH]; [done|]. by rewrite !bind_cons, Hfg, IH.
Qed.

Section ReadingTheReport.

Variable Schema : Type.
Variable validate : Manifest → Schema → Validation.
Variable w : World Schema.
Variable m : Manifest.

Let bullet : string := "   • ".
Let sign : string := "  ⚠️  ".
Let error_annotation : string := "::error file=templates/index.json::".
Let warning_annotation : string := "::warning file=templates/index.json::".

Lemma banner_no_message p :
  p ∈ [bullet; sign; error_annotation; warning_annotation] →
  printed_after p (banner Schema w) = [].
Proof.
  intros Hp. repeat (apply elem_of_cons in Hp as [->|Hp]);
    [..|by apply not_elem_of_nil in Hp]; reflexivity.
Qed.

Lemma stage_report_no_message p :
  p ∈ [bullet; sign; error_annotation; warning_annotation] →
  printed_after p (stage_report Schema validate w m) = [].
Proof.
  intros Hp. unfold stage_report.
  destruct (validate_schema Schema validate m (schema_file w)).1,
    (check_file_consistency m (directory w)).1.1,
    (nonempty (check_file_consistency m (directory w)).2),
    (check_duplicate_names m).1, (check_required_thumbnails m (directory w)).1;
    repeat (apply elem_of_cons in Hp as [->|Hp]);
    try (by apply not_elem_of_nil in Hp); reflexivity.
Qed.

Lemma print_warning_read warning :
  printed_after sign (print_warning Schema w warning) = [warning] ∧
  printed_after bullet (print_warning Schema w warning) = [] ∧
  printed_after error_annotation (print_warning Schema w warning) = [] ∧
  printed_after warning_annotation (print_warning Schema w warning)
  = if is_github_actions w then [warning] else [].
Proof. unfold print_warning. by destruct (is_github_actions w). Qed.

Lemma print_error_read error :
  printed_after bullet (print_error Schema w error) = [error] ∧
  printed_after sign (print_error Schema w error) = [] ∧
  printed_after warning_annotation (print_error Schema w error) = [] ∧
  printed_after error_annotation (print_error Schema w error)
  = if is_github_actions w then [error] else [].
Proof. unfold print_error. by destruct (is_github_actions w). Qed.

Lemma warnings_report_read warns :
  printed_after sign (warnings_report w warns) = warns ∧
  printed_after bullet (warnings_report w warns) = [] ∧
  printed_after error_annotation (warnings_report w warns) = [] ∧
  printed_after warning_annotation (warnings_report w warns)
  = if is_github_actions w then warns else [].
Proof.
  unfold warnings_report. destruct warns as [|wn warns].
  { by destruct (is_github_actions w). }
  generalize (wn :: warns). clear wn warns. intros warns.
  change (printed_after ?p (?h :: ?l)) with (printed_after p [h] ++ printed_after p l).
  rewrite !printed_after_bind. split_and!.
  - rewrite (bind_ext_all _ (fun x => [x])) by (intros x; exact (proj1 (print_warning_read x))).
    by rewrite bind_singleton.
  - rewrite (bind_ext_all _ (fun _ => [])) by (intros x; exact (proj1 (proj2 (print_warning_read x)))).
    by rewrite bind_nil_all.
  - rewrite (bind_ext_all _ (fun _ => [])) by (intros x; exact (proj1 (proj2 (proj2 (print_warning_read x))))).
    by rewrite bind_nil_all.
  - rewrite (bind_ext_all _ (fun x => if is_github_actions w then [x] else []))
      by (intros x; exact (proj2 (proj2 (proj2 (print_warning_read x))))).
    destruct (is_github_actions w); [by rewrite bind_singleton|by rewrite bind_nil_all].
Qed.

Lemma summary_report_read errs warns :
  printed_after bullet (summary_report w errs warns) = errs ∧
  printed_after sign (summary_report w errs warns) = [] ∧
  printed_after warning_annotation (summary_report w errs warns) = [] ∧
  printed_after error_annotation (summary_report w errs warns)
  = if is_github_actions w then errs else [].
Proof.
  unfold summary_report. destruct errs as [|e errs].
  { destruct warns; by destruct (is_github_actions w). }
  generalize (e :: errs). clear e errs. intros errs.
  change (printed_after ?p (?h1 :: ?h2 :: ?l))
    with (printed_after p [h1] ++ printed_after p [h2] ++ printed_after p l).
  rewrite !printed_after_bind. split_and!.
  - rewrite (bind_ext_all _ (fun x => [x])) by (intros x; exact (proj1 (print_error_read x))).
    by rewrite bind_singleton.
  - rewrite (bind_ext_all _ (fun _ => [])) by (intros x; exact (proj1 (proj2 (print_error_read x)))).
    by rewrite bind_nil_all.
  - rewrite (bind_ext_all _ (fun _ => [])) by (intros x; exact (proj1 (proj2 (proj2 (print_error_read x))))).
    by rewrite bind_nil_all.
  - rewrite (bind_ext_all _ (fun x => if is_github_actions w then [x] else []))
      by (intros x; exact (proj2 (proj2 (proj2 (print_error_read x))))).
    destruct (is_github_actions w); [by rewrite bind_singleton|by rewrite bind_nil_all].
Qed.

End ReadingTheReport.

(** X12: the report of a run whose inputs load can be read back: the
    texts printed after the bullet of the summary are the errors of the
    four checks, every one of them, in the order schema, file
    consistency, duplicate names, required thumbnails; the texts printed
    after the warning sign are the warnings of the file-consistency
    check, whether or not the run has errors. *)
Theorem report_lists_errors_and_warnings
    (Schema : Type) (validate : Manifest → Schema → Validation)
    (w : World Schema) (m : Manifest) :
  path_exists (directory w) "index.json" = true →
  path_exists (directory w) "index.schema.json" = true →
  index_file w = Loaded m →
  printed_after "   • " (main Schema validate w).1
  = (validate_schema Schema validate m (schema_file w)).2
    ++ (check_file_consistency m (directory w)).1.2
    ++ (check_duplicate_names m).2
    ++ (check_required_thumbnails m (directory w)).2 ∧
  printed_after "  ⚠️  " (main Schema validate w).1
  = (check_file_consistency m (directory w)).2.
Proof.
  intros H1 H2 H3. rewrite (main_report Schema validate w m) by done. cbn [fst].
  rewrite !printed_after_app.
  destruct (warnings_report_read Schema w (check_file_consistency m (directory w)).2)
    as (-> & -> & _).
  destruct (summary_report_read Schema w (collected_errors Schema validate w m)
              (check_file_consistency m (directory w)).2) as (-> & -> & _).
  rewrite !banner_no_message, !stage_report_no_message
    by (apply (bool_decide_unpack _); by vm_compute).
  cbn [app]. by rewrite app_nil_r.
Qed.

Lemma report_lists_errors_and_warnings_witness :
  printed_after "   • " (main unit (fun _ _ => Valid) orphan_world).1
  = (validate_schema unit (fun _ _ => Valid) flux_manifest (schema_file orphan_world)).2
    ++ (check_file_consistency flux_manifest (directory orphan_world)).1.2
    ++ (check_duplicate_names flux_manifest).2
    ++ (check_required_thumbnails flux_manifest (directory orphan_world)).2 ∧
  printed_after "  ⚠️  " (main unit (fun _ _ => Valid) orphan_world).1
  = (check_file_consistency flux_manifest (directory orphan_world)).2.
Proof.
  apply (report_lists_errors_and_warnings unit (fun _ _ => Valid)
           orphan_world flux_manifest).
  - vm_compute. reflexivity.
  - vm_compute. reflexivity.
  - reflexivity.
Defined.

(** X13: with [GITHUB_ACTIONS] set, the run also prints one annotation
    for every warning and one for every error: read back, the
    [::warning] lines give the warnings and the [::error] lines the
    collected errors, in order. *)
Theorem annotations_list_errors_and_warnings
    (Schema : Type) (validate : Manifest → Schema → Validation)
    (w : World Schema) (m : Manifest) :
  path_exists (directory w) "index.json" = true →
  path_exists (directory w) "index.schema.json" = true →
  index_file w = Loaded m → is_github_actions w = true →
  printed_after "::error file=templates/index.json::" (main Schema validate w).1
  = (validate_schema Schema validate m (schema_file w)).2
    ++ (check_file_consistency m (directory w)).1.2
    ++ (check_duplicate_names m).2
    ++ (check_required_thumbnails m (directory w)).2 ∧
  printed_after "::warning file=templates/index.json::" (main Schema validate w).1
  = (check_file_consistency m (directory w)).2.
Proof.
  intros H1 H2 H3 H4. rewrite (main_report Schema validate w m) by done. cbn [fst].
  rewrite !printed_after_app.
  destruct (warnings_report_read Schema w (check_file_consistency m (directory w)).2)
    as (_ & _ & -> & ->).
  destruct (summary_report_read Schema w (collected_errors Schema validate w m)
              (check_file_consistency m (directory w)).2) as (_ & _ & -> & ->).
  rewrite !banner_no_message, !stage_report_no_message
    by (apply (bool_decide_unpack _); by vm_compute).
  rewrite H4. cbn [app]. by rewrite app_nil_r.
Qed.

Lemma annotations_list_errors_and_warnings_witness :
  printed_after "::warning file=templates/index.json::"
    (main unit (fun _ _ => Valid) (relabel "templates" true orphan_world)).1
  = ["Workflow file not referenced in index.json: orphan.json"].
Proof.
  refine (eq_trans (proj2 (annotations_list_errors_and_warnings unit (fun _ _ => Valid)
            (relabel "templates" true orphan_world) flux_manifest _ _ _ _)) _).
  - vm_compute. reflexivity.
  - vm_compute. reflexivity.
  - reflexivity.
  - reflexivity.
  - vm_compute. reflexivity.
Defined.

(** ** The environment of a run *)

Lemma filter_all {A} (P : A → Prop) `{!∀ x, Decision (P x)} (l : list A) :
  Forall P l → filter P l = l.
Proof.
  induction 1 as [|x l Hx _ IH]; [done|].
  by rewrite filter_cons, decide_True, IH.
Qed.

Lemma filter_bind {A B} (P : B → Prop) `{!∀ x, Decision (P x)}
    (f : A → list B) (l : list A) :
  filter P (l ≫= f) = l ≫= fun x => filter P (f x).
Proof.
  induction l as [|x l IH]; [done|].
  by rewrite !bind_cons, filter_app, IH.
Qed.

Section Environment.

Variable Schema : Type.
Variable validate : Manifest → Schema → Validation.
Variable w : World Schema.
Variable text : string.

Let plain (line : string) : Prop := is_annotation line = false.

Lemma banner_plain flag : Forall plain (banner Schema (relabel text flag w)).
Proof. repeat constructor. Qed.

Lemma stage_report_plain flag m :
  Forall plain (stage_report Schema validate (relabel text flag w) m).
Proof.
  unfold stage_report. cbn [relabel schema_file directory].
  destruct (validate_schema Schema validate m (schema_file w)).1,
    (check_file_consistency m (directory w)).1.1,
    (nonempty (check_file_consistency m (directory w)).2),
    (check_duplicate_names m).1, (check_required_thumbnails m (directory w)).1;
    repeat constructor.
Qed.

Lemma stage_report_relabel flag m :
  stage_report Schema validate (relabel text flag w) m = stage_report Schema validate w m.
Proof. reflexivity. Qed.

Lemma warnings_report_plain warns :
  filter plain (warnings_report (relabel text true w) warns)
  = warnings_report (relabel text false w) warns.
Proof.
  unfold warnings_report. destruct warns as [|wn warns]; [done|].
  generalize (wn :: warns). clear wn warns. intros warns.
  rewrite filter_cons, decide_True by reflexivity. f_equal.
  rewrite filter_bind. by apply bind_ext_all.
Qed.

Lemma summary_report_plain errs warns :
  filter plain (summary_report (relabel text true w) errs warns)
  = summary_report (relabel text false w) errs warns.
Proof.
  unfold summary_report.
  rewrite filter_cons, decide_True by reflexivity. f_equal.
  destruct errs as [|e errs]; [by destruct warns|].
  generalize (e :: errs). clear e errs. intros errs.
  rewrite filter_cons, decide_True by reflexivity. f_equal.
  rewrite filter_bind. by apply bind_ext_all.
Qed.

End Environment.

(** X14: neither the value of [GITHUB_ACTIONS] nor the path of the
    templates directory has a part in the exit code, on any run; and
    what a run prints with [GITHUB_ACTIONS] set is what it prints
    without, with annotation lines added: taking out the texts that
    start with [::] gives the output of the run without the variable,
    which has no such text. *)
Theorem ci_flag_only_adds_annotations
    (Schema : Type) (validate : Manifest → Schema → Validation)
    (w : World Schema) (text : string) (flag : bool) :
  (main Schema validate (relabel text flag w)).2 = (main Schema validate w).2 ∧
  filter (fun line => is_annotation line = false)
         (main Schema validate (relabel text true w)).1
  = (main Schema validate (relabel text false w)).1 ∧
  ∀ line, line ∈ (main Schema validate (relabel text false w)).1 →
          is_annotation line = false.
Proof.
  assert (Hfilter :
    filter (fun line => is_annotation line = false)
           (main Schema validate (relabel text true w)).1
    = (main Schema validate (relabel text false w)).1).
  { destruct (path_exists (directory w) "index.json") eqn:H1;
      [|unfold main; cbn [relabel directory]; by rewrite H1].
    destruct (path_exists (directory w) "index.schema.json") eqn:H2;
      [|unfold main; cbn [relabel directory]; by rewrite H1, H2].
    destruct (index_file w) as [m|e] eqn:H3;
      [|unfold main; cbn [relabel directory index_file]; by rewrite H1, H2, H3].
    rewrite !(main_report Schema validate _ m) by done. cbn [fst].
    rewrite !filter_app, warnings_report_plain, summary_report_plain.
    rewrite !filter_all by (apply banner_plain || apply stage_report_plain).
    reflexivity. }
  split_and!; [|done|].
  - destruct (path_exists (directory w) "index.json") eqn:H1;
      [|unfold main; cbn [relabel directory]; by rewrite H1].
    destruct (path_exists (directory w) "index.schema.json") eqn:H2;
      [|unfold main; cbn [relabel directory]; by rewrite H1, H2].
    destruct (index_file w) as [m|e] eqn:H3;
      [|unfold main; cbn [relabel directory index_file]; by rewrite H1, H2, H3].
    rewrite (main_exit_code Schema validate (relabel text flag w) m) by done.
    by rewrite (main_exit_code Schema validate w m) by done.
  - intros line Hin. rewrite <- Hfilter in Hin.
    by apply list_elem_of_filter in Hin as [? _].
Qed.

(** ** The last lines of the report *)

Lemma clean_stage_report
    (Schema : Type) (validate : Manifest → Schema → Validation)
    (w : World Schema) (m : Manifest) :
  collected_errors Schema validate w m = [] →
  (check_file_consistency m (directory w)).2 = [] →
  stage_report Schema validate w m
  = [ stage_1; "   ✅ Schema validation passed";
      stage_2; "   ✅ File consistency check passed";
      stage_3; "   ✅ No duplicate names found";
      stage_4; "   ✅ All templates have thumbnails" ].
Proof.
  unfold collected_errors. intros He Hw.
  apply app_eq_nil in He as [He1 He]. apply app_eq_nil in He as [He2 He].
  apply app_eq_nil in He as [He3 He4].
  assert (Hv1 : (validate_schema Schema validate m (schema_file w)).1 = true).
  { unfold validate_schema in *.
    destruct (schema_file w) as [s|e];
      [destruct (validate m s) as [|msg path|]|]; by cbn in *. }
  assert (Hv2 : (check_file_consistency m (directory w)).1.1 = true).
  { unfold check_file_consistency in *. cbn [fst snd] in *.
    apply bool_decide_eq_true. by rewrite He2. }
  assert (Hv3 : (check_duplicate_names m).1 = true).
  { rewrite check_duplicate_names_closed in *. cbn [fst snd] in *.
    by apply bool_decide_eq_true. }
  assert (Hv4 : (check_required_thumbnails m (directory w)).1 = true).
  { unfold check_required_thumbnails in *. cbn [fst snd] in *.
    apply bool_decide_eq_true. by rewrite He4. }
  unfold stage_report. by rewrite Hv1, Hv2, Hv3, Hv4, Hw.
Qed.

(** X15: for a run whose inputs load, the report is the banner followed
    by the ten lines of a clean run, with exit code 0, exactly when the
    four checks return no error and no warning; with warnings and no
    error the last line says how many warnings there are; with errors
    the summary says how many errors there are, counting those of all
    four checks. *)
Theorem summary_states_outcome
    (Schema : Type) (validate : Manifest → Schema → Validation)
    (w : World Schema) (m : Manifest) :
  path_exists (directory w) "index.json" = true →
  path_exists (directory w) "index.schema.json" = true →
  index_file w = Loaded m →
  let errs := (validate_schema Schema validate m (schema_file w)).2
              ++ (check_file_consistency m (directory w)).1.2
              ++ (check_duplicate_names m).2
              ++ (check_required_thumbnails m (directory w)).2 in
  let warns := (check_file_consistency m (directory w)).2 in
  (main Schema validate w = (banner Schema w ++ clean_run_lines, 0%Z)
   ↔ errs = [] ∧ warns = []) ∧
  (errs = [] → warns ≠ [] →
   last (main Schema validate w).1
   = Some ("✅ All validations passed with " +:+ pretty (length warns)
           +:+ " warning(s)!")) ∧
  (errs ≠ [] →
   ("❌ Validation failed with " +:+ pretty (length errs) +:+ " error(s):" +:+ nl)
   ∈ (main Schema validate w).1).
Proof.
  intros H1 H2 H3. cbv zeta. fold (collected_errors Schema validate w m).
  rewrite (main_report Schema validate w m) by done. cbn [fst].
  split_and!.
  - split.
    + intros Heq. pose proof (f_equal snd Heq) as Hcode.
      pose proof (f_equal fst Heq) as Hout. cbn [fst snd] in Hcode, Hout. clear Heq.
      assert (He : collected_errors Schema validate w m = [])
        by (destruct (collected_errors Schema validate w m); [done|discriminate]).
      split; [done|]. rewrite He in Hout.
      destruct (check_file_consistency m (directory w)).2 as [|wn warns]; [done|].
      exfalso. apply (f_equal length) in Hout. rewrite !length_app in Hout.
      cbn [stage_report warnings_report summary_report clean_run_lines length] in Hout.
      lia.
    + intros [He Hw]. rewrite He, Hw, clean_stage_report by done. reflexivity.
  - intros He Hw. rewrite He.
    destruct (check_file_consistency m (directory w)).2 as [|wn warns]; [done|].
    unfold summary_report.
    change (?a :: [?b]) with ([a] ++ [b]). rewrite !List.app_assoc.
    apply last_snoc.
  - intros He. rewrite !elem_of_app. right. right. right.
    unfold summary_report.
    destruct (collected_errors Schema validate w m) as [|e errs]; [done|].
    right. left.
Qed.

Lemma summary_states_outcome_witness :
  last (main unit (fun _ _ => Valid) orphan_world).1
  = Some "✅ All validations passed with 1 warning(s)!".
Proof.
  refine (eq_trans (proj1 (proj2 (summary_states_outcome unit (fun _ _ => Valid)
            orphan_world flux_manifest _ _ _)) _ _) _).
  - vm_compute. reflexivity.
  - vm_compute. reflexivity.
  - reflexivity.
  - vm_compute. reflexivity.
  - vm_compute. discriminate.
  - vm_compute. reflexivity.
Defined.
